(** * Janua OAuth2 sign-in and the JWT middleware of claudecodeui

    A shallow embedding of
      - server/utils/janua-client.js   (class JanuaClient),
      - server/routes/janua-auth.js    (routes /login, /callback, /logout),
      - server/middleware/auth.js      (authenticateToken, generateToken),
    followed by the properties of the authentication core.

    Conventions.
      - A JavaScript string is the [string] of its UTF-8 bytes.
      - A value that may be [undefined] is an [option]; [None] and the empty
        string are the falsy values of such a field.
      - [Date.now()] is a [Z] (milliseconds).
      - A handler is a function from what it reads (request, clock, the
        answers of the outside world) and the server state to its response,
        the new state and the list of calls it made to the outside.
      - Requests are served one at a time.
      - Packages the files import ([jsonwebtoken], [node-fetch], [crypto])
        and the module server/database/db.js are parameters: the first
        three are fields of [World], the last is the class [UserDb]. *)

From Stdlib Require Import ZArith Ascii String List Lia Bool.
From stdpp Require Import base option list strings gmap.

Local Open Scope string_scope.
Local Open Scope Z_scope.

(** ** Results of calls that may throw *)

(** [Return a] is normal completion, [Throw m] an exception whose
    [message] is [m] (the only field of an [Error] the handlers read). *)
Inductive outcome (A : Type) : Type :=
| Return (a : A)
| Throw (message : string).
Arguments Return {A} a.
Arguments Throw {A} message.

(** ** JavaScript built-ins used by the handlers *)
Module Js.

(** Truthiness of a possibly-undefined string. *)
Definition truthy (v : option string) : bool :=
  match v with
  | Some s => negb (String.eqb s "")
  | None => false
  end.

(** [a || b] on possibly-undefined strings. *)
Definition or (a b : option string) : option string :=
  if truthy a then a else b.

(** [a || 'literal'] *)
Definition or_default (a : option string) (d : string) : string :=
  match a with
  | Some s => if String.eqb s "" then d else s
  | None => d
  end.

(** String conversion in a template literal or [URLSearchParams]. *)
Definition to_string (v : option string) : string :=
  match v with
  | Some s => s
  | None => "undefined"
  end.

(** [s.split(sep)] for a one-character separator. *)
Fixpoint split (sep : ascii) (s : string) : list string :=
  match s with
  | EmptyString => [EmptyString]
  | String c s' =>
      if Ascii.eqb c sep then EmptyString :: split sep s'
      else match split sep s' with
           | h :: t => String c h :: t
           | [] => [String c EmptyString]
           end
  end.

(** [xs.includes(x)] on an array of strings. *)
Definition includes (xs : list string) (x : string) : bool :=
  existsb (String.eqb x) xs.

(** [xs.join(sep)] *)
Fixpoint join (sep : string) (xs : list string) : string :=
  match xs with
  | [] => ""
  | [x] => x
  | x :: rest => x ++ sep ++ join sep rest
  end.

Fixpoint starts_with (p s : string) : bool :=
  match p, s with
  | EmptyString, _ => true
  | String a p', String b s' => Ascii.eqb a b && starts_with p' s'
  | String _ _, EmptyString => false
  end.

(** [hay.includes(needle)] on strings. *)
Fixpoint str_includes (needle hay : string) : bool :=
  starts_with needle hay ||
  match hay with
  | EmptyString => false
  | String _ hay' => str_includes needle hay'
  end.

Definition hex_digit (n : N) : ascii :=
  match String.get (N.to_nat n) "0123456789ABCDEF" with
  | Some c => c
  | None => "0"%char
  end.

(** [%XX] for one byte. *)
Definition percent (c : ascii) : string :=
  let n := N_of_ascii c in
  String "%" (String (hex_digit (n / 16)) (String (hex_digit (n mod 16)) "")).

Definition in_range (lo hi c : ascii) : bool :=
  (N_of_ascii lo <=? N_of_ascii c)%N && (N_of_ascii c <=? N_of_ascii hi)%N.

Definition alnum (c : ascii) : bool :=
  in_range "a" "z" c || in_range "A" "Z" c || in_range "0" "9" c.

Definition one_of (set : string) (c : ascii) : bool :=
  existsb (Ascii.eqb c) (list_ascii_of_string set).

(** The characters [encodeURIComponent] leaves alone:
    A-Z a-z 0-9 - _ . ! ~ * ' ( ) *)
Definition uri_unreserved (c : ascii) : bool :=
  alnum c || one_of "-_.!~*'()" c.

(** [encodeURIComponent(s)]: every byte of the UTF-8 form of [s] other
    than an unreserved character becomes [%XX]. *)
Fixpoint encodeURIComponent (s : string) : string :=
  match s with
  | EmptyString => EmptyString
  | String c s' =>
      (if uri_unreserved c then String c "" else percent c)
        ++ encodeURIComponent s'
  end.

(** The application/x-www-form-urlencoded serializer behind
    [URLSearchParams.prototype.toString]: A-Z a-z 0-9 * - . _ are kept,
    a space becomes [+], every other byte becomes [%XX]. *)
Fixpoint form_urlencode (s : string) : string :=
  match s with
  | EmptyString => EmptyString
  | String c s' =>
      (if alnum c || one_of "*-._" c then String c ""
       else if Ascii.eqb c " " then "+"
       else percent c)
        ++ form_urlencode s'
  end.

(** [new URLSearchParams({k1: v1, ...}).toString()] *)
Definition URLSearchParams_toString (params : list (string * string)) : string :=
  join "&" (map (fun kv => form_urlencode (fst kv) ++ "=" ++ form_urlencode (snd kv)) params).

(** Only unreserved characters and [%]: the text is one query value. *)
Definition uri_safe (s : string) : bool :=
  forallb (fun c => uri_unreserved c || Ascii.eqb c "%") (list_ascii_of_string s).

(** The Unicode-aware string methods.  Their tables are the engine's;
    the handlers are embedded over any implementation of them. *)
Class StringMethods := {
  toLowerCase : string -> string;
  trim : string -> string;
  toLowerCase_empty : toLowerCase "" = "";
}.

(** The two methods on ASCII text, for evaluation. *)
Definition ascii_lower (c : ascii) : ascii :=
  if in_range "A" "Z" c then ascii_of_N (N_of_ascii c + 32) else c.

Fixpoint ascii_toLowerCase (s : string) : string :=
  match s with
  | EmptyString => EmptyString
  | String c s' => String (ascii_lower c) (ascii_toLowerCase s')
  end.

(** space, \t, \n, \v, \f, \r *)
Definition ascii_space (c : ascii) : bool :=
  Ascii.eqb c " " || in_range "009" "013" c.

Fixpoint trim_start (s : string) : string :=
  match s with
  | String c s' => if ascii_space c then trim_start s' else s
  | EmptyString => EmptyString
  end.

Fixpoint trim_end (s : string) : string :=
  match s with
  | EmptyString => EmptyString
  | String c s' =>
      match trim_end s' with
      | EmptyString => if ascii_space c then EmptyString else String c EmptyString
      | t => String c t
      end
  end.

Definition ascii_trim (s : string) : string := trim_end (trim_start s).

Definition AsciiStrings : StringMethods :=
  {| toLowerCase := ascii_toLowerCase; trim := ascii_trim;
     toLowerCase_empty := eq_refl |}.

End Js.

(** ** Data *)

(** [process.env], as far as the three files read it. *)
Record Env := {
  JANUA_URL : option string;
  JANUA_CLIENT_ID : option string;
  JANUA_CLIENT_SECRET : option string;
  JANUA_REDIRECT_URI : option string;
  JANUA_ALLOWED_EMAILS : option string;
  ENV_NODE_ENV : option string;
  ENV_JWT_EXPIRATION : option string;
  ENV_JWT_SECRET : option string;
  VITE_IS_PLATFORM : option string;
  ALLOW_PLATFORM_MODE : option string;
}.

(** A row of the users table, as far as the handlers read it. *)
Record User := { user_id : Z; user_username : string }.

(** The payload [generateToken] signs and [jwt.verify] gives back. *)
Record Claims := { userId : Z; username : string }.

(** Third argument of [userDb.createUser] in the callback. *)
Record OAuthProfile := {
  profile_email : option string;
  profile_name : option string;
  oauth_provider : string;
  oauth_user_id : string;
}.

(** Body of the token endpoint's answer, at the fields the callback
    destructures. *)
Record TokenResponse := { access_token : option string; id_token : option string }.

(** Body of the userinfo endpoint's answer, at the fields the callback
    reads: [sub], [email] and [name]; the last two may be missing. *)
Record UserInfo := { sub : string; email : option string; name : option string }.

(** What the client reads of a [fetch] response: [response.ok],
    [await response.text()], [await response.json()]. *)
Record FetchResponse (A : Type) := {
  ok : bool;
  text : string;
  json : outcome A;
}.
Arguments ok {A} _.
Arguments text {A} _.
Arguments json {A} _.

(** The value stored in [oauthStates] under a state token. *)
Record StoredState := { expiresAt : Z }.

(** [req.query] of the callback; each parameter is given once, as a
    string, or not at all. *)
Record Query := {
  q_code : option string;
  q_state : option string;
  q_error : option string;
  q_error_description : option string;
}.

(** Values in the JSON bodies the handlers send. *)
Inductive JsonValue : Type :=
| JBool (b : bool)
| JStr (s : string).

(** What a handler sends: [res.redirect(url)] or
    [res.status(n).json(body)] ([res.json(body)] has status 200). *)
Inductive response : Type :=
| Redirect (location : string)
| Json (status : Z) (body : list (string * JsonValue)).

(** Outcome of a middleware: [req.user = user; next()] or a response. *)
Inductive verdict : Type :=
| Next (user : User)
| Respond (r : response).

(** The HTTP status of a middleware's refusal. *)
Definition refusal_status (v : verdict) : option Z :=
  match v with
  | Respond (Json status _) => Some status
  | Respond (Redirect _) => Some 302
  | Next _ => None
  end.

(** Calls a handler makes to the provider, the database and the JWT
    library, in the order it makes them. *)
Inductive event : Type :=
| FetchToken (code : string)
| FetchUserInfo (authorization : string)
| FetchRevoke (token : string)
| DbGetUserByUsername (name : string)
| DbCreateUser (name : string) (passwordHash : option string) (extra : OAuthProfile)
| DbUpdateLastLogin (id : Z)
| DbGetUserById (id : Z)
| DbGetFirstUser
| JwtSign (payload : Claims)
| JwtVerify (token : string).

(** What one request observes of the outside: the clock, the random
    generator, the provider's answers and the JWT library (whose answers
    depend on the clock). A [fetch] that rejects is a [Throw]. *)
Record World := {
  Date_now : Z;
  randomBytes_hex : string;
  token_endpoint : string -> outcome (FetchResponse TokenResponse);
  userinfo_endpoint : string -> outcome (FetchResponse UserInfo);
  revoke_endpoint : string -> outcome unit;
  jwt_sign : Claims -> option string -> string -> outcome string;
  jwt_verify : string -> option string -> outcome Claims;
}.

(** [userDb] of server/database/db.js, which the handlers import: its
    operations over a database state [DB]; each may throw. *)
Class UserDb (DB : Type) := {
  getUserByUsername : string -> DB -> outcome (option User);
  createUser : string -> option string -> OAuthProfile -> DB -> outcome User * DB;
  updateLastLogin : Z -> DB -> outcome unit * DB;
  getUserById : Z -> DB -> outcome (option User);
  getFirstUser : DB -> outcome (option User);
}.

(** ** server/utils/janua-client.js *)

Record JanuaClient := {
  januaUrl : string;
  clientId : option string;
  clientSecret : option string;
  redirectUri : string;
}.

(** [constructor()] *)
Definition new_JanuaClient (env : Env) : JanuaClient :=
  {| januaUrl := Js.or_default (JANUA_URL env) "https://auth.madfam.io";
     clientId := JANUA_CLIENT_ID env;
     clientSecret := JANUA_CLIENT_SECRET env;
     redirectUri := Js.or_default (JANUA_REDIRECT_URI env) "https://agents.madfam.io/auth/callback" |}.

(** [getAuthorizationUrl(state)] *)
Definition getAuthorizationUrl (this : JanuaClient) (state : string) : string :=
  let params := Js.URLSearchParams_toString
    [ ("client_id", Js.to_string (clientId this));
      ("redirect_uri", redirectUri this);
      ("response_type", "code");
      ("scope", "openid profile email agent:view agent:control");
      ("state", state) ] in
  januaUrl this ++ "/api/v1/oauth/authorize?" ++ params.

(** [isConfigured()] *)
Definition isConfigured (this : JanuaClient) : bool :=
  Js.truthy (clientId this) && Js.truthy (clientSecret this).

(** ** server/middleware/auth.js, module constants *)

Definition NODE_ENV (env : Env) : string :=
  Js.or_default (ENV_NODE_ENV env) "development".

Definition JWT_EXPIRATION (env : Env) : string :=
  Js.or_default (ENV_JWT_EXPIRATION env) "8h".

Definition JWT_SECRET (env : Env) : option string :=
  if Js.truthy (ENV_JWT_SECRET env) then ENV_JWT_SECRET env
  else if String.eqb (NODE_ENV env) "production" then None
  else Some "claude-ui-dev-secret-change-in-production".

(** [process.env.X === 'true'] *)
Definition is_true (v : option string) : bool :=
  match v with
  | Some s => String.eqb s "true"
  | None => false
  end.

(** [authHeader && authHeader.split(' ')[1]] *)
Definition bearer_token (authHeader : option string) : option string :=
  match authHeader with
  | None => None
  | Some h => if String.eqb h "" then Some "" else Js.split " " h !! 1%nat
  end.

(** ** The handlers *)

Section Handlers.

Context {strings : Js.StringMethods}.
Context {DB : Type} {userDb : UserDb DB}.

(** An [async] body: it reads and writes the database, records the
    calls it makes, and completes or throws. *)
Definition M (A : Type) : Type := DB -> outcome A * DB * list event.

#[global] Instance M_ret : MRet M := fun A a db => (Return a, db, []).

#[global] Instance M_bind : MBind M := fun A B f m db =>
  match m db with
  | (Return a, db', evs) =>
      match f a db' with
      | (r, db'', evs') => (r, db'', (evs ++ evs')%list)
      end
  | (Throw e, db', evs) => (Throw e, db', evs)
  end.

(** A result that is already there: [await response.json()]. *)
Definition lift {A} (r : outcome A) : M A := fun db => (r, db, []).

(** [throw new Error(msg)] *)
Definition throw {A} (msg : string) : M A := lift (Throw msg).

(** A call to the outside that does not touch the database. *)
Definition call {A} (ev : event) (r : outcome A) : M A :=
  fun db => (r, db, [ev]).

(** A database read. *)
Definition db_read {A} (ev : event) (f : DB -> outcome A) : M A :=
  fun db => (f db, db, [ev]).

(** A database write. *)
Definition db_write {A} (ev : event) (f : DB -> outcome A * DB) : M A :=
  fun db => let '(r, db') := f db in (r, db', [ev]).

(** *** JanuaClient, the methods that use the network *)

(** [async exchangeCodeForToken(code)] *)
Definition exchangeCodeForToken (w : World) (code : string) : M TokenResponse :=
  response ← call (FetchToken code) (token_endpoint w code);
  if negb (ok response) then
    let error := text response in
    throw ("Token exchange failed: " ++ error)
  else
    lift (json response).

(** [async getUserInfo(accessToken)] *)
Definition getUserInfo (w : World) (accessToken : option string) : M UserInfo :=
  let authorization := "Bearer " ++ Js.to_string accessToken in
  response ← call (FetchUserInfo authorization) (userinfo_endpoint w authorization);
  if negb (ok response) then
    let error := text response in
    throw ("Failed to get user info: " ++ error)
  else
    lift (json response).

(** [async revokeToken(token)] *)
Definition revokeToken (w : World) (token : string) : M unit :=
  call (FetchRevoke token) (revoke_endpoint w token).

(** *** server/middleware/auth.js *)

(** [generateToken(user)] *)
Definition generateToken (env : Env) (w : World) (user : User) : M string :=
  let payload := {| userId := user_id user; username := user_username user |} in
  call (JwtSign payload) (jwt_sign w payload (JWT_SECRET env) (JWT_EXPIRATION env)).

Definition error_body (msg : string) : list (string * JsonValue) :=
  [("error", JStr msg)].

(** The [try] block of the platform-mode branch. *)
Definition platform_try : M verdict :=
  user ← db_read DbGetFirstUser getFirstUser;
  match user with
  | None => mret (Respond (Json 500 (error_body "Platform mode: No user found in database")))
  | Some user => mret (Next user)
  end.

(** The [try] block of the JWT branch. *)
Definition jwt_try (env : Env) (w : World) (token : string) : M verdict :=
  decoded ← call (JwtVerify token) (jwt_verify w token (JWT_SECRET env));
  user ← db_read (DbGetUserById (userId decoded)) (getUserById (userId decoded));
  match user with
  | None => mret (Respond (Json 401 (error_body "Invalid token. User not found.")))
  | Some user => mret (Next user)
  end.

(** [try { body } catch (error) { handler }] around a body that ends
    in a value of type [A]. *)
Definition try_catch {A} (body : M A) (handler : string -> A) (db : DB)
  : A * DB * list event :=
  match body db with
  | (Return a, db', evs) => (a, db', evs)
  | (Throw message, db', evs) => (handler message, db', evs)
  end.

(** [authenticateToken(req, res, next)]; [authHeader] is
    [req.headers['authorization']]. *)
Definition authenticateToken (env : Env) (w : World)
    (authHeader : option string) (db : DB) : verdict * DB * list event :=
  if is_true (VITE_IS_PLATFORM env) then
    if String.eqb (NODE_ENV env) "production" && negb (is_true (ALLOW_PLATFORM_MODE env)) then
      (Respond (Json 403 (error_body
         "Platform mode is disabled in production. Set ALLOW_PLATFORM_MODE=true to enable.")),
       db, [])
    else
      try_catch platform_try
        (fun _ => Respond (Json 500 (error_body "Platform mode: Failed to fetch user"))) db
  else
    let token := bearer_token authHeader in
    match token with
    | Some token =>
        if String.eqb token "" then
          (Respond (Json 401 (error_body "Access denied. No token provided.")), db, [])
        else
          try_catch (jwt_try env w token)
            (fun _ => Respond (Json 403 (error_body "Invalid token"))) db
    | None =>
        (Respond (Json 401 (error_body "Access denied. No token provided.")), db, [])
    end.

(** *** server/routes/janua-auth.js *)

(** The router's state: the module-level [oauthStates] map, and the
    database behind [userDb]. *)
Record Server := {
  oauthStates : gmap string StoredState;
  db : DB;
}.

Definition set_oauthStates (m : gmap string StoredState) (srv : Server) : Server :=
  {| oauthStates := m; db := db srv |}.

Definition set_db (d : DB) (srv : Server) : Server :=
  {| oauthStates := oauthStates srv; db := d |}.

(** [router.get('/login', ...)] *)
Definition login (env : Env) (w : World) (srv : Server)
  : response * Server * list event :=
  let januaClient := new_JanuaClient env in
  if negb (isConfigured januaClient) then
    (Json 500 [("error", JStr "Janua OAuth2 not configured");
               ("hint", JStr "Set JANUA_CLIENT_ID and JANUA_CLIENT_SECRET environment variables")],
     srv, [])
  else
    let state := randomBytes_hex w in
    let expiresAt := Date_now w + 10 * 60 * 1000 in
    let srv := set_oauthStates (<[state := {| expiresAt := expiresAt |}]> (oauthStates srv)) srv in
    let authUrl := getAuthorizationUrl januaClient state in
    (Redirect authUrl, srv, []).

(** [allowedEmails] of the callback. *)
Definition allowedEmails (env : Env) : list string :=
  map (fun email => Js.toLowerCase (Js.trim email))
      (Js.split "," (Js.or_default (JANUA_ALLOWED_EMAILS env) "admin@madfam.io")).

Definition access_denied_message : string :=
  "Access denied. Your email is not authorized to use this application.".

(** The callback's [try] block from "Create or update user in local
    database" to the end of the [if]: the value of [user]. *)
Definition find_or_create_user (userInfo : UserInfo) : M User :=
  found ← db_read (DbGetUserByUsername (sub userInfo)) (getUserByUsername (sub userInfo));
  match found with
  | None =>
      let extra := {| profile_email := email userInfo;
                      profile_name := name userInfo;
                      oauth_provider := "janua";
                      oauth_user_id := sub userInfo |} in
      db_write (DbCreateUser (sub userInfo) None extra)
               (createUser (sub userInfo) None extra)
  | Some user =>
      db_write (DbUpdateLastLogin (user_id user)) (updateLastLogin (user_id user));;
      mret user
  end.

(** The callback's [try] block from "Email whitelist validation" on. *)
Definition callback_after_profile (env : Env) (w : World) (userInfo : UserInfo)
  : M response :=
  let userEmail := Js.toLowerCase (Js.or_default (email userInfo) "") in
  if negb (Js.includes (allowedEmails env) userEmail) then
    mret (Redirect ("/?error=" ++ Js.encodeURIComponent access_denied_message))
  else
    user ← find_or_create_user userInfo;
    sessionToken ← generateToken env w user;
    mret (Redirect ("/?token=" ++ sessionToken ++ "&oauth=janua")).

(** The [try] block of the callback. *)
Definition callback_try (env : Env) (w : World) (code : string) : M response :=
  tokenResponse ← exchangeCodeForToken w code;
  userInfo ← getUserInfo w (access_token tokenResponse);
  callback_after_profile env w userInfo.

(** [router.get('/callback', ...)] *)
Definition callback (env : Env) (w : World) (query : Query) (srv : Server)
  : response * Server * list event :=
  if Js.truthy (q_error query) then
    (Redirect ("/?error=" ++ Js.encodeURIComponent
                 (Js.to_string (Js.or (q_error_description query) (q_error query)))),
     srv, [])
  else
    match q_code query, q_state query with
    | Some code, Some state =>
        if String.eqb code "" || String.eqb state "" then
          (Redirect "/?error=missing_parameters", srv, [])
        else
          match oauthStates srv !! state with
          | None => (Redirect "/?error=invalid_state", srv, [])
          | Some storedState =>
              if Date_now w >? expiresAt storedState then
                (Redirect "/?error=state_expired",
                 set_oauthStates (delete state (oauthStates srv)) srv, [])
              else
                let srv := set_oauthStates (delete state (oauthStates srv)) srv in
                let '(res, db', evs) :=
                  try_catch (callback_try env w code)
                    (fun message => Redirect ("/?error=" ++ Js.encodeURIComponent message))
                    (db srv) in
                (res, set_db db' srv, evs)
          end
    | _, _ => (Redirect "/?error=missing_parameters", srv, [])
    end.

(** [router.post('/logout', ...)] *)
Definition logout (env : Env) (w : World) (authHeader : option string) (srv : Server)
  : response * Server * list event :=
  let token := bearer_token authHeader in
  let '(_, db', evs) :=
    match token with
    | Some token =>
        if negb (String.eqb token "") && isConfigured (new_JanuaClient env) then
          try_catch (revokeToken w token) (fun _ => tt) (db srv)
        else (tt, db srv, [])
    | None => (tt, db srv, [])
    end in
  (Json 200 [("success", JBool true); ("message", JStr "Logged out successfully")],
   set_db db' srv, evs).

(** *** Runs of the router

    Requests are served one at a time.  (The callback touches
    [oauthStates] only before its first [await] and the database only
    after its last one.) *)
Inductive request : Type :=
| GetLogin (w : World)
| GetCallback (w : World) (query : Query)
| PostLogout (w : World) (authHeader : option string).

Definition serve (env : Env) (req : request) (srv : Server)
  : response * Server * list event :=
  match req with
  | GetLogin w => login env w srv
  | GetCallback w query => callback env w query srv
  | PostLogout w authHeader => logout env w authHeader srv
  end.

(** The state after a sequence of requests. *)
Definition run (env : Env) (reqs : list request) (srv : Server) : Server :=
  fold_left (fun srv req => snd (fst (serve env req srv))) reqs srv.

(** The callback gets as far as the state lookup: no [error]
    parameter, and both [code] and [state] present. *)
Definition reaches_state_check (query : Query) : bool :=
  negb (Js.truthy (q_error query)) && Js.truthy (q_code query) && Js.truthy (q_state query).

(** The callback gets past the state check: the presented token is in
    the store and [Date.now()] is not after its expiry. *)
Definition passes_state_check (w : World) (query : Query) (srv : Server) : bool :=
  reaches_state_check query &&
  match q_state query with
  | Some state =>
      match oauthStates srv !! state with
      | Some storedState => negb (Date_now w >? expiresAt storedState)
      | None => false
      end
  | None => false
  end.

(** The code exchange succeeds with body [tr]: the fetch resolves,
    [response.ok] holds and [response.json()] gives [tr]. *)
Definition exchange_result (w : World) (code : string) : option TokenResponse :=
  match token_endpoint w code with
  | Return response =>
      if ok response then
        match json response with Return tr => Some tr | Throw _ => None end
      else None
  | Throw _ => None
  end.

Definition authorization_of (tr : TokenResponse) : string :=
  "Bearer " ++ Js.to_string (access_token tr).

(** The profile fetch succeeds with body [ui]. *)
Definition profile_result (w : World) (tr : TokenResponse) : option UserInfo :=
  match userinfo_endpoint w (authorization_of tr) with
  | Return response =>
      if ok response then
        match json response with Return ui => Some ui | Throw _ => None end
      else None
  | Throw _ => None
  end.

(** The address the allow-list is asked about. *)
Definition userEmail_of (userInfo : UserInfo) : string :=
  Js.toLowerCase (Js.or_default (email userInfo) "").

(** The profile of a callback that gets past the state check, the
    code exchange, the profile fetch and the allow-list. *)
Definition accepted_profile (env : Env) (w : World) (query : Query) (srv : Server)
  : option UserInfo :=
  if passes_state_check w query srv then
    code ← q_code query;
    tr ← exchange_result w code;
    userInfo ← profile_result w tr;
    if Js.includes (allowedEmails env) (userEmail_of userInfo) then Some userInfo else None
  else None.

(** The database calls in [evs] go by the subject of [userInfo]: the
    only lookup is by [sub]; a user is created only under [sub], with
    no password, and only when the lookup in [d] found nobody; the user
    whose last login is updated is the one that lookup found; and a
    token is signed only for a user of that name. *)
Definition keyed_by_subject (userInfo : UserInfo) (d : DB) (evs : list event) : Prop :=
  DbGetUserByUsername (sub userInfo) ∈ evs /\
  (forall n, DbGetUserByUsername n ∈ evs -> n = sub userInfo) /\
  (forall n pw x, DbCreateUser n pw x ∈ evs ->
     n = sub userInfo /\ pw = None /\ oauth_user_id x = sub userInfo /\
     getUserByUsername (sub userInfo) d = Return None) /\
  (forall i, DbUpdateLastLogin i ∈ evs ->
     exists u, getUserByUsername (sub userInfo) d = Return (Some u) /\ user_id u = i) /\
  (forall p, JwtSign p ∈ evs -> username p = sub userInfo).

(** The request is a login that draws the token [tok]. *)
Definition draws (tok : string) (req : request) : bool :=
  match req with
  | GetLogin w => String.eqb (randomBytes_hex w) tok
  | _ => false
  end.

(** No login of the sequence draws the token [tok] again. *)
Definition not_reissued (tok : string) (reqs : list request) : bool :=
  forallb (fun req => negb (draws tok req)) reqs.

End Handlers.

Arguments Server DB : clear implicits.
Arguments M DB A : clear implicits.

(** ** The rest of the two modules *)

Section MoreHandlers.

Context {DB : Type} {userDb : UserDb DB}.

(** *** server/middleware/auth.js *)

(** The start-up check of the module: with [NODE_ENV] [production] and
    no [JWT_SECRET] it logs and calls [process.exit(1)]; [true] when the
    module gets past it. *)
Definition auth_module_loads (env : Env) : bool :=
  negb (String.eqb (NODE_ENV env) "production" && negb (Js.truthy (JWT_SECRET env))).

(** [validateApiKey(req, res, next)]; [API_KEY] is [process.env.API_KEY],
    [apiKey] is [req.headers['x-api-key']]; [None] is [next()]. *)
Definition validateApiKey (API_KEY : option string) (apiKey : option string)
  : option response :=
  if negb (Js.truthy API_KEY) then None
  else if negb (bool_decide (apiKey = API_KEY)) then
    Some (Json 401 (error_body "Invalid API key"))
  else None.

(** The [try] block of the platform-mode branch of [authenticateWebSocket]. *)
Definition ws_platform_try : M DB (option Claims) :=
  user ← db_read DbGetFirstUser getFirstUser;
  match user with
  | Some user => mret (Some {| userId := user_id user; username := user_username user |})
  | None => mret None
  end.

(** The [try] block of its JWT branch. *)
Definition ws_jwt_try (env : Env) (w : World) (token : string) : M DB (option Claims) :=
  decoded ← call (JwtVerify token) (jwt_verify w token (JWT_SECRET env));
  mret (Some decoded).

(** [authenticateWebSocket(token)]; [None] is [null]. *)
Definition authenticateWebSocket (env : Env) (w : World)
    (token : option string) (db : DB) : option Claims * DB * list event :=
  if is_true (VITE_IS_PLATFORM env) then
    if String.eqb (NODE_ENV env) "production" && negb (is_true (ALLOW_PLATFORM_MODE env)) then
      (None, db, [])
    else
      try_catch ws_platform_try (fun _ => None) db
  else
    match token with
    | Some token =>
        if String.eqb token "" then (None, db, [])
        else try_catch (ws_jwt_try env w token) (fun _ => None) db
    | None => (None, db, [])
    end.

(** *** server/routes/janua-auth.js *)

(** [router.get('/status', ...)] *)
Definition status (env : Env) : response :=
  let januaClient := new_JanuaClient env in
  Json 200 [("oauth_enabled", JBool (isConfigured januaClient));
            ("oauth_provider", JStr "janua");
            ("janua_url", JStr (januaUrl januaClient))].

(** *** Reconciliation *)

(** What [generateToken] signs for a user. *)
Definition payload_of (u : User) : Claims :=
  {| userId := user_id u; username := user_username u |}.

(** Every user stored under an id in [d] is still stored under it in [d']. *)
Definition persists (d d' : DB) : Prop :=
  forall i v, getUserById i d = Return (Some v) -> getUserById i d' = Return (Some v).

(** What an accepted callback with result [r] did with the profile
    [userInfo] on the database [d]: its calls go by the subject; a user
    the lookup found has the last login updated, nobody is created and
    the token is signed for that row; when the lookup found nobody a
    user is created under the subject and the token is signed for the
    user [createUser] returned; and a redirect with a token carries the
    token signed in one of these calls. *)
Definition reconciled (env : Env) (w : World) (userInfo : UserInfo) (d : DB)
    (r : response * Server DB * list event) : Prop :=
  let extra := {| profile_email := email userInfo; profile_name := name userInfo;
                  oauth_provider := "janua"; oauth_user_id := sub userInfo |} in
  keyed_by_subject userInfo d r.2 /\
  (forall u, getUserByUsername (sub userInfo) d = Return (Some u) ->
     DbUpdateLastLogin (user_id u) ∈ r.2 /\
     (forall n pw x, DbCreateUser n pw x ∉ r.2) /\
     (forall p, JwtSign p ∈ r.2 -> p = payload_of u)) /\
  (getUserByUsername (sub userInfo) d = Return None ->
     DbCreateUser (sub userInfo) None extra ∈ r.2 /\
     (forall i, DbUpdateLastLogin i ∉ r.2) /\
     (forall p, JwtSign p ∈ r.2 ->
        exists u, createUser (sub userInfo) None extra d = (Return u, db r.1.2) /\
                  p = payload_of u)) /\
  ((exists indicator, r.1.1 = Redirect ("/?error=" ++ indicator)) \/
   (exists p t, JwtSign p ∈ r.2 /\
      jwt_sign w p (JWT_SECRET env) (JWT_EXPIRATION env) = Return t /\
      r.1.1 = Redirect ("/?token=" ++ t ++ "&oauth=janua"))).

(** *** Kinds of configurations, of requests and of calls *)

(** Platform mode is switched on and, in production, allowed. *)
Definition platform_mode_open (env : Env) : bool :=
  is_true (VITE_IS_PLATFORM env) &&
  negb (String.eqb (NODE_ENV env) "production" && negb (is_true (ALLOW_PLATFORM_MODE env))).

Definition is_login (req : @request) : bool :=
  match req with
  | GetLogin _ => true
  | _ => false
  end.

(** A call to the provider. *)
Definition is_fetch (ev : event) : bool :=
  match ev with
  | FetchToken _ | FetchUserInfo _ | FetchRevoke _ => true
  | _ => false
  end.

Definition is_FetchToken (ev : event) : bool :=
  match ev with FetchToken _ => true | _ => false end.

Definition is_FetchUserInfo (ev : event) : bool :=
  match ev with FetchUserInfo _ => true | _ => false end.

Definition is_JwtVerify (ev : event) : bool :=
  match ev with JwtVerify _ => true | _ => false end.

(** No space in the text. *)
Definition no_space (s : string) : bool :=
  forallb (fun c => negb (Ascii.eqb c " ")) (list_ascii_of_string s).

(** Only letters and digits. *)
Definition all_alnum (s : string) : bool :=
  forallb Js.alnum (list_ascii_of_string s).

(** What the form serializer puts out: letters, digits and [* - . _ + %]. *)
Definition form_safe (s : string) : bool :=
  forallb (fun c => Js.alnum c || Js.one_of "*-._+%" c) (list_ascii_of_string s).

End MoreHandlers.

(** ** The credential store *)

(** Modelled from the spec: server/database/db.js ([userDb]) is not among
    the sources.  The spec's Credential Store persists user records with a
    unique [id], a unique non-null [username], a nullable [passwordHash],
    [email], [displayName], the provider linkage and [lastLoginAt], which
    is set on each later login; records are never deleted by the core. *)
Module MemDb.

Record Row := {
  row_id : Z;
  row_username : string;
  row_passwordHash : option string;
  row_email : option string;
  row_displayName : option string;
  row_identityProvider : string;
  row_externalSubject : option string;
  row_lastLoginAt : option Z;
}.

(** The rows, the next free id and the store's clock. *)
Record t := { rows : list Row; next_id : Z; clock : Z }.

Definition empty : t := {| rows := []; next_id := 1; clock := 0 |}.

Definition to_user (r : Row) : User :=
  {| user_id := row_id r; user_username := row_username r |}.

Definition by_username (n : string) (r : Row) : bool := String.eqb (row_username r) n.
Definition by_id (i : Z) (r : Row) : bool := row_id r =? i.

Definition get_by_username (n : string) (d : t) : outcome (option User) :=
  Return (to_user <$> find (by_username n) (rows d)).

Definition create (n : string) (pw : option string) (x : OAuthProfile) (d : t)
  : outcome User * t :=
  match find (by_username n) (rows d) with
  | Some _ => (Throw "UNIQUE constraint failed: users.username", d)
  | None =>
      let r := {| row_id := next_id d;
                  row_username := n;
                  row_passwordHash := pw;
                  row_email := profile_email x;
                  row_displayName := profile_name x;
                  row_identityProvider := oauth_provider x;
                  row_externalSubject := Some (oauth_user_id x);
                  row_lastLoginAt := None |} in
      (Return (to_user r),
       {| rows := (rows d ++ [r])%list; next_id := next_id d + 1; clock := clock d + 1 |})
  end.

Definition touch (i : Z) (now : Z) (r : Row) : Row :=
  if by_id i r then
    {| row_id := row_id r;
       row_username := row_username r;
       row_passwordHash := row_passwordHash r;
       row_email := row_email r;
       row_displayName := row_displayName r;
       row_identityProvider := row_identityProvider r;
       row_externalSubject := row_externalSubject r;
       row_lastLoginAt := Some now |}
  else r.

Definition update_last_login (i : Z) (d : t) : outcome unit * t :=
  (Return tt,
   {| rows := map (touch i (clock d)) (rows d); next_id := next_id d; clock := clock d + 1 |}).

Definition get_by_id (i : Z) (d : t) : outcome (option User) :=
  Return (to_user <$> find (by_id i) (rows d)).

Definition get_first (d : t) : outcome (option User) :=
  Return (to_user <$> head (rows d)).

(** No two rows share an id, and every id is below the next free one. *)
Fixpoint distinct_ids (rs : list Row) : bool :=
  match rs with
  | [] => true
  | r :: rest => forallb (fun r' => negb (by_id (row_id r) r')) rest && distinct_ids rest
  end.

Definition wf (d : t) : bool :=
  distinct_ids (rows d) && forallb (fun r => row_id r <? next_id d) (rows d).

#[export] Instance userDb : UserDb t := {|
  getUserByUsername := get_by_username;
  createUser := create;
  updateLastLogin := update_last_login;
  getUserById := get_by_id;
  getFirstUser := get_first;
|}.

End MemDb.

(** What the properties ask of [userDb], on the databases [db_ok] that
    it keeps in order: a user found or created under a name carries that
    name and is the user stored under its id, and the two writes keep the
    database in order and every stored user in place. *)
Class UserDbLaws (DB : Type) `{UserDb DB} (db_ok : DB -> Prop) : Prop := {
  found_is_stored : forall n d u,
    db_ok d -> getUserByUsername n d = Return (Some u) ->
    user_username u = n /\ getUserById (user_id u) d = Return (Some u);
  created_is_stored : forall n pw x d u d',
    db_ok d -> createUser n pw x d = (Return u, d') ->
    user_username u = n /\ getUserById (user_id u) d' = Return (Some u);
  createUser_keeps : forall n pw x d r d',
    db_ok d -> createUser n pw x d = (r, d') -> db_ok d' /\ persists d d';
  updateLastLogin_keeps : forall i d r d',
    db_ok d -> updateLastLogin i d = (r, d') -> db_ok d' /\ persists d d';
}.

(** ** A deployment to evaluate the handlers on *)
Module Sample.

Definition env : Env := {|
  JANUA_URL := None;
  JANUA_CLIENT_ID := Some "jnc_client";
  JANUA_CLIENT_SECRET := Some "jns_secret";
  JANUA_REDIRECT_URI := None;
  JANUA_ALLOWED_EMAILS := None;
  ENV_NODE_ENV := Some "production";
  ENV_JWT_EXPIRATION := None;
  ENV_JWT_SECRET := Some "k3y";
  VITE_IS_PLATFORM := None;
  ALLOW_PLATFORM_MODE := None;
|}.

(** The same deployment without the client credentials. *)
Definition env_unconfigured : Env := {|
  JANUA_URL := None;
  JANUA_CLIENT_ID := None;
  JANUA_CLIENT_SECRET := None;
  JANUA_REDIRECT_URI := None;
  JANUA_ALLOWED_EMAILS := None;
  ENV_NODE_ENV := Some "production";
  ENV_JWT_EXPIRATION := None;
  ENV_JWT_SECRET := Some "k3y";
  VITE_IS_PLATFORM := None;
  ALLOW_PLATFORM_MODE := None;
|}.

(** The same deployment in platform mode. *)
Definition env_platform : Env := {|
  JANUA_URL := None;
  JANUA_CLIENT_ID := Some "jnc_client";
  JANUA_CLIENT_SECRET := Some "jns_secret";
  JANUA_REDIRECT_URI := None;
  JANUA_ALLOWED_EMAILS := None;
  ENV_NODE_ENV := Some "development";
  ENV_JWT_EXPIRATION := None;
  ENV_JWT_SECRET := Some "k3y";
  VITE_IS_PLATFORM := Some "true";
  ALLOW_PLATFORM_MODE := None;
|}.

(** A toy token codec: the token of a payload is ["jwt." ++ username],
    accepted again only for the user [alice]. *)
Definition sign (payload : Claims) (secret : option string) (expiresIn : string)
  : outcome string :=
  Return ("jwt." ++ username payload).

Definition verify (token : string) (secret : option string) : outcome Claims :=
  if String.eqb token "jwt.alice" then Return {| userId := 1; username := "alice" |}
  else Throw "invalid signature".

Definition ok_json {A} (a : A) : outcome (FetchResponse A) :=
  Return {| ok := true; text := ""; json := Return a |}.

Definition not_ok {A} (body : string) : outcome (FetchResponse A) :=
  Return {| ok := false; text := body; json := Throw "Unexpected token" |}.

Definition token : string :=
  "9f86d081884c7d659a2feaa0c55ad015a3bf4f1b2b0b822cd15d6c15b0f00a08".

Definition token2 : string :=
  "60303ae22b998861bce3b28f33eec1be758a213c86c93c076dbe9f558c11c752".

(** A provider that answers every code with an access token and
    every access token with the given profile. *)
Definition world_drawing (random : string) (now : Z) (profile : UserInfo) : World := {|
  Date_now := now;
  randomBytes_hex := random;
  token_endpoint := fun _ => ok_json {| access_token := Some "at-1"; id_token := Some "id-1" |};
  userinfo_endpoint := fun _ => ok_json profile;
  revoke_endpoint := fun _ => Return tt;
  jwt_sign := sign;
  jwt_verify := verify;
|}.

Definition world : Z -> UserInfo -> World := world_drawing token.

(** A provider whose token endpoint refuses every code. *)
Definition world_refusing (now : Z) (body : string) : World := {|
  Date_now := now;
  randomBytes_hex := token;
  token_endpoint := fun _ => not_ok body;
  userinfo_endpoint := fun _ => not_ok body;
  revoke_endpoint := fun _ => Throw "connect ECONNREFUSED";
  jwt_sign := sign;
  jwt_verify := verify;
|}.

Definition admin : UserInfo :=
  {| sub := "janua|1"; email := Some "Admin@MadFam.io"; name := Some "Admin" |}.

(** Another identity of the provider under the same address. *)
Definition admin_twin : UserInfo :=
  {| sub := "janua|2"; email := Some "admin@madfam.io"; name := Some "Admin" |}.

Definition stranger : UserInfo :=
  {| sub := "janua|7"; email := Some "eve@example.org"; name := Some "Eve" |}.

Definition query_of (code state : string) : Query :=
  {| q_code := Some code; q_state := Some state;
     q_error := None; q_error_description := None |}.

Definition server0 : Server MemDb.t :=
  {| oauthStates := ∅; db := MemDb.empty |}.

#[local] Existing Instance Js.AsciiStrings.

#[local] Existing Instance MemDb.userDb.

(** The server after one login at time 1000. *)
Definition server1 : Server MemDb.t :=
  (login env (world 1000 admin) server0).1.2.

(** The server after the callback of that login, for [admin], and a
    second login at time 3000. *)
Definition server2 : Server MemDb.t :=
  run env [GetCallback (world 2000 admin) (query_of "c0de" token);
           GetLogin (world_drawing token2 3000 admin_twin)] server1.

End Sample.

(** ** Further deployments and answers of the outside *)
Module MoreSamples.

Import Sample.

(** A database that cannot be reached: every operation throws. *)
Definition locked : string := "SQLITE_BUSY: database is locked".

#[export] Instance BrokenDb : UserDb unit := {|
  getUserByUsername := fun _ _ => Throw locked;
  createUser := fun _ _ _ d => (Throw locked, d);
  updateLastLogin := fun _ d => (Throw locked, d);
  getUserById := fun _ _ => Throw locked;
  getFirstUser := fun _ => Throw locked;
|}.

(** A server over it, after one login at time 1000. *)
Definition broken_server1 : Server unit :=
  (login env (world 1000 admin) {| oauthStates := ∅; db := tt |}).1.2.

(** The provider answers, but the token library refuses to sign. *)
Definition world_unsigned (now : Z) (profile : UserInfo) : World := {|
  Date_now := now;
  randomBytes_hex := token;
  token_endpoint := fun _ => ok_json {| access_token := Some "at-1"; id_token := Some "id-1" |};
  userinfo_endpoint := fun _ => ok_json profile;
  revoke_endpoint := fun _ => Return tt;
  jwt_sign := fun _ _ _ => Throw "secretOrPrivateKey must have a value";
  jwt_verify := verify;
|}.

(** The provider cannot be reached. *)
Definition world_offline (now : Z) : World := {|
  Date_now := now;
  randomBytes_hex := token;
  token_endpoint := fun _ => Throw "request to https://auth.madfam.io/api/v1/oauth/token failed";
  userinfo_endpoint := fun _ => Throw "request to https://auth.madfam.io/api/v1/oauth/userinfo failed";
  revoke_endpoint := fun _ => Throw "request to https://auth.madfam.io/api/v1/oauth/revoke failed";
  jwt_sign := sign;
  jwt_verify := verify;
|}.

(** Platform mode asked for in production, without the opt-in. *)
Definition env_platform_production : Env := {|
  JANUA_URL := None;
  JANUA_CLIENT_ID := Some "jnc_client";
  JANUA_CLIENT_SECRET := Some "jns_secret";
  JANUA_REDIRECT_URI := None;
  JANUA_ALLOWED_EMAILS := None;
  ENV_NODE_ENV := Some "production";
  ENV_JWT_EXPIRATION := None;
  ENV_JWT_SECRET := Some "k3y";
  VITE_IS_PLATFORM := Some "true";
  ALLOW_PLATFORM_MODE := None;
|}.

(** The server after two logins, at times 1000 and 1500. *)
Definition server_two_logins : Server MemDb.t :=
  (login env (world_drawing token2 1500 admin) server1).1.2.

Definition access : TokenResponse :=
  {| access_token := Some "at-1"; id_token := Some "id-1" |}.

Definition user1 : User := {| user_id := 1; user_username := "janua|1" |}.

(** The provider's answer to a sign-in the user cancelled, carrying the
    state of the login. *)
Definition query_cancelled (state : string) : Query :=
  {| q_code := None; q_state := Some state;
     q_error := Some "access_denied"; q_error_description := Some "user cancelled" |}.

(** A database whose only user is [bob], with id 2: user 1 is gone. *)
Definition bob : User := {| user_id := 2; user_username := "bob" |}.

Definition bob_only : MemDb.t :=
  {| MemDb.rows := [{| MemDb.row_id := 2;
                       MemDb.row_username := "bob";
                       MemDb.row_passwordHash := Some "$2b$12$hash";
                       MemDb.row_email := None;
                       MemDb.row_displayName := None;
                       MemDb.row_identityProvider := "local";
                       MemDb.row_externalSubject := None;
                       MemDb.row_lastLoginAt := None |}];
     MemDb.next_id := 3;
     MemDb.clock := 1 |}.

End MoreSamples.

(** * Properties *)

Section Properties.

Context {strings : Js.StringMethods}.
Context {DB : Type} {userDb : UserDb DB}.

Implicit Types (env : Env) (w : World) (srv : Server DB) (query : Query) (d : DB).

(** Membership of an event in an explicit list, case by case. *)
Ltac event_cases H :=
  repeat (apply elem_of_cons in H as [H|H]; [try discriminate H|]);
  try (apply elem_of_nil in H; destruct H).

Ltac intros_in :=
  try intros ?Hin;
  match goal with H : _ ∈ _ |- _ => event_cases H end.

(** ** The state handshake *)

Lemma truthy_Some (v : option string) :
  Js.truthy v = true -> exists s, v = Some s /\ String.eqb s "" = false.
Proof.
  destruct v as [s|]; simpl; [|discriminate].
  intros Hs. exists s. split; [reflexivity|].
  now apply negb_true_iff.
Qed.

(** A callback that reaches the lookup with a known, unexpired token
    deletes it and runs the [try] block. *)
Lemma callback_fresh env w query srv code tok e :
  Js.truthy (q_error query) = false ->
  q_code query = Some code -> String.eqb code "" = false ->
  q_state query = Some tok -> String.eqb tok "" = false ->
  oauthStates srv !! tok = Some e ->
  Date_now w <= expiresAt e ->
  callback env w query srv =
    let srv' := set_oauthStates (delete tok (oauthStates srv)) srv in
    let '(res, db', evs) :=
      try_catch (callback_try env w code)
        (fun message => Redirect ("/?error=" ++ Js.encodeURIComponent message)) (db srv') in
    (res, set_db db' srv', evs).
Proof.
  intros Herr Hc Hc' Hs Hs' Hl Hnow. unfold callback.
  rewrite Herr, Hc, Hs, Hc', Hs', Hl. simpl.
  destruct (Z.gtb_spec (Date_now w) (expiresAt e)); [lia | reflexivity].
Qed.

(** The [try] block starts with the token exchange. *)
Lemma callback_try_first_event env w code d :
  exists r d' evs, callback_try env w code d = (r, d', FetchToken code :: evs).
Proof.
  unfold callback_try, exchangeCodeForToken, call.
  unfold mbind at 1. unfold M_bind. unfold mbind at 1. unfold M_bind.
  destruct (token_endpoint w code) as [resp|msg]; [|eauto].
  destruct (negb (ok resp)); simpl; [eauto|].
  destruct (json resp) as [tr|msg]; simpl; [|eauto].
  match goal with |- context [ mbind ?f ?m ?b ] =>
    destruct (mbind f m b) as [[r d'] evs] end.
  eauto.
Qed.

(** A callback only ever deletes from [oauthStates]. *)
Lemma callback_oauthStates env w query srv :
  oauthStates (callback env w query srv).1.2 = oauthStates srv \/
  exists s, oauthStates (callback env w query srv).1.2 = delete s (oauthStates srv).
Proof.
  unfold callback.
  destruct (Js.truthy (q_error query)); [now left|].
  destruct (q_code query) as [code|]; [|now left].
  destruct (q_state query) as [state|]; [|now left].
  destruct (_ || _); [now left|].
  destruct (oauthStates srv !! state) as [e|]; [|now left].
  destruct (_ >? _); [right; now exists state|].
  destruct (try_catch _ _ _) as [[res d'] evs]. right. now exists state.
Qed.

Lemma logout_oauthStates env w authHeader srv :
  oauthStates (logout env w authHeader srv).1.2 = oauthStates srv.
Proof.
  unfold logout.
  destruct (bearer_token authHeader) as [t|]; [|reflexivity].
  destruct (_ && _); [|reflexivity].
  now destruct (try_catch _ _ _) as [[u d'] evs].
Qed.

(** A token absent from the store stays absent while no login draws it. *)
Lemma serve_keeps_absent env req srv tok :
  draws tok req = false ->
  oauthStates srv !! tok = None ->
  oauthStates (serve env req srv).1.2 !! tok = None.
Proof.
  intros Hreq Habs.
  destruct req as [w|w query|w authHeader]; simpl in *.
  - unfold login. destruct (negb _); simpl; [assumption|].
    apply String.eqb_neq in Hreq. now rewrite lookup_insert_ne.
  - destruct (callback_oauthStates env w query srv) as [->|[s ->]]; [assumption|].
    rewrite lookup_delete. now case_decide.
  - now rewrite logout_oauthStates.
Qed.

Lemma run_keeps_absent env reqs srv tok :
  not_reissued tok reqs = true ->
  oauthStates srv !! tok = None ->
  oauthStates (run env reqs srv) !! tok = None.
Proof.
  revert srv. induction reqs as [|req reqs IH]; intros srv Hreqs Habs; [assumption|].
  simpl in Hreqs. apply andb_prop in Hreqs as [Hreq Hreqs].
  apply negb_true_iff in Hreq.
  change (run env (req :: reqs) srv) with (run env reqs (serve env req srv).1.2).
  apply IH; [assumption|].
  now apply serve_keeps_absent.
Qed.

(** A callback presenting a token that is not in the store makes no
    call and leaves the state as it is. *)
Lemma callback_absent env w query srv tok :
  q_state query = Some tok ->
  oauthStates srv !! tok = None ->
  (callback env w query srv).1.2 = srv /\
  (callback env w query srv).2 = [] /\
  (exists indicator, (callback env w query srv).1.1 = Redirect ("/?error=" ++ indicator)) /\
  (reaches_state_check query = true ->
   (callback env w query srv).1.1 = Redirect "/?error=invalid_state").
Proof.
  intros Hs Habs. unfold callback, reaches_state_check. rewrite Hs.
  destruct (Js.truthy (q_error query)); simpl; [split_and!; eauto; easy|].
  destruct (q_code query) as [code|]; simpl; [|split_and!; eauto; easy].
  destruct (String.eqb code ""); simpl; [split_and!; eauto; easy|].
  destruct (String.eqb tok ""); simpl; [split_and!; eauto; easy|].
  rewrite Habs. split_and!; eauto.
Qed.

(** A configured login stores its state token with a ten-minute expiry. *)
Lemma login_issues env w srv :
  isConfigured (new_JanuaClient env) = true ->
  oauthStates (login env w srv).1.2 !! randomBytes_hex w
    = Some {| expiresAt := Date_now w + 600000 |}.
Proof.
  intros Hc. unfold login. rewrite Hc. simpl. now rewrite lookup_insert_eq.
Qed.

Lemma reaches_state_check_inv query :
  reaches_state_check query = true ->
  Js.truthy (q_error query) = false /\
  (exists code, q_code query = Some code /\ String.eqb code "" = false) /\
  (exists tok, q_state query = Some tok /\ String.eqb tok "" = false).
Proof.
  unfold reaches_state_check. intros H.
  apply andb_prop in H as [H Hs]. apply andb_prop in H as [He Hc].
  apply negb_true_iff in He.
  auto using truthy_Some.
Qed.

(** C1, as the code has it.  A state token that is in the store (where a
    login put it) and not yet expired is consumed exactly once by the
    callbacks that get as far as the state check (no [error] parameter,
    [code] and [state] present); a callback that does not get that far
    changes nothing and calls nobody.  The first callback presenting the
    token to the check deletes it and goes on to the token exchange; after
    that, and after any further requests in which no login draws the same
    token again, every callback presenting it makes no call to the
    provider, changes nothing and answers with an error redirect, which is
    [/?error=invalid_state] when it gets as far as the state check. *)
Theorem state_token_consumed_once env w1 query1 srv tok e reqs w2 query2 :
  reaches_state_check query1 = true ->
  q_state query1 = Some tok ->
  oauthStates srv !! tok = Some e ->
  Date_now w1 <= expiresAt e ->
  not_reissued tok reqs = true ->
  q_state query2 = Some tok ->
  let first := callback env w1 query1 srv in
  let srv' := run env reqs first.1.2 in
  let second := callback env w2 query2 srv' in
  (exists code rest, q_code query1 = Some code /\ first.2 = FetchToken code :: rest) /\
  oauthStates first.1.2 = delete tok (oauthStates srv) /\
  second.2 = [] /\
  second.1.2 = srv' /\
  (exists indicator, second.1.1 = Redirect ("/?error=" ++ indicator)) /\
  (reaches_state_check query2 = true -> second.1.1 = Redirect "/?error=invalid_state") /\
  (forall w0 query0, reaches_state_check query0 = false ->
     (callback env w0 query0 srv).1.2 = srv /\ (callback env w0 query0 srv).2 = []).
Proof.
  intros Hreach Hs Hl Hnow Hreqs Hs2 first srv' second.
  assert (Hearly : forall w0 query0, reaches_state_check query0 = false ->
            (callback env w0 query0 srv).1.2 = srv /\ (callback env w0 query0 srv).2 = []).
  { intros w0 query0. unfold reaches_state_check, callback.
    destruct (Js.truthy (q_error query0)); simpl; [auto|].
    destruct (q_code query0) as [c0|]; simpl; [|auto].
    destruct (q_state query0) as [s0|]; simpl; [|now destruct (String.eqb c0 "")].
    destruct (String.eqb c0 ""); simpl; [auto|].
    destruct (String.eqb s0 ""); simpl; [auto | discriminate]. }
  destruct (reaches_state_check_inv _ Hreach) as (Herr & (code & Hc & Hc') & (tok' & Hs' & Htok)).
  rewrite Hs in Hs'. injection Hs' as <-.
  assert (Hfirst : first =
    let srv1 := set_oauthStates (delete tok (oauthStates srv)) srv in
    let '(res, db', evs) :=
      try_catch (callback_try env w1 code)
        (fun message => Redirect ("/?error=" ++ Js.encodeURIComponent message)) (db srv1) in
    (res, set_db db' srv1, evs)).
  { subst first. now apply callback_fresh with (e := e). }
  assert (Hdel : oauthStates first.1.2 = delete tok (oauthStates srv)).
  { rewrite Hfirst. simpl. now destruct (try_catch _ _ _) as [[res d'] evs]. }
  assert (Habs : oauthStates srv' !! tok = None).
  { subst srv'. apply run_keeps_absent; [assumption|].
    rewrite Hdel. apply lookup_delete_eq. }
  destruct (callback_absent env w2 query2 srv' tok Hs2 Habs) as (Hsrv & Hevs & Hind & Hres).
  split_and!; try assumption.
  exists code. rewrite Hfirst. simpl. unfold try_catch.
  destruct (callback_try_first_event env w1 code (db srv)) as (r & d' & evs & ->).
  destruct r; simpl; eauto.
Qed.

(** *** The [try] block of the callback *)

Lemma callback_passes env w query srv code tok :
  passes_state_check w query srv = true ->
  q_code query = Some code -> q_state query = Some tok ->
  callback env w query srv =
    let srv' := set_oauthStates (delete tok (oauthStates srv)) srv in
    let '(res, db', evs) :=
      try_catch (callback_try env w code)
        (fun message => Redirect ("/?error=" ++ Js.encodeURIComponent message)) (db srv') in
    (res, set_db db' srv', evs).
Proof.
  unfold passes_state_check. intros Hp Hc Hs.
  apply andb_prop in Hp as [Hreach Hp].
  destruct (reaches_state_check_inv _ Hreach) as (Herr & (c & Hc' & Hc'') & (t & Hs' & Htok)).
  rewrite Hs in Hs', Hp. rewrite Hc in Hc'. injection Hs' as <-. injection Hc' as <-.
  destruct (oauthStates srv !! tok) as [e|] eqn:Hl; [|discriminate].
  apply negb_true_iff in Hp.
  apply callback_fresh with (e := e); try assumption.
  destruct (Z.gtb_spec (Date_now w) (expiresAt e)); [discriminate | lia].
Qed.

Lemma bind_unfold {A B} (m : M DB A) (f : A -> M DB B) (d : DB) :
  (m ≫= f) d =
    match m d with
    | (Return a, d', evs) =>
        match f a d' with
        | (r, d'', evs') => (r, d'', (evs ++ evs')%list)
        end
    | (Throw e, d', evs) => (Throw e, d', evs)
    end.
Proof. reflexivity. Qed.

Lemma exchange_ok w code tr d :
  exchange_result w code = Some tr ->
  exchangeCodeForToken w code d = (Return tr, d, [FetchToken code]).
Proof.
  unfold exchange_result, exchangeCodeForToken. rewrite bind_unfold. unfold call.
  destruct (token_endpoint w code) as [resp|]; [|discriminate].
  destruct (ok resp); [|discriminate]. simpl. unfold lift.
  destruct (json resp) as [tr'|]; [|discriminate]. now intros [= ->].
Qed.

Lemma profile_ok w tr ui d :
  profile_result w tr = Some ui ->
  getUserInfo w (access_token tr) d = (Return ui, d, [FetchUserInfo (authorization_of tr)]).
Proof.
  unfold profile_result, getUserInfo. fold (authorization_of tr).
  rewrite bind_unfold. unfold call.
  destruct (userinfo_endpoint w (authorization_of tr)) as [resp|]; [|discriminate].
  destruct (ok resp); [|discriminate]. simpl. unfold lift.
  destruct (json resp) as [ui'|]; [|discriminate]. now intros [= ->].
Qed.

(** After a successful exchange and profile fetch the [try] block is
    its part from the allow-list on. *)
Lemma callback_try_profile env w code tr ui d :
  exchange_result w code = Some tr ->
  profile_result w tr = Some ui ->
  callback_try env w code d =
    let '(r, d', evs) := callback_after_profile env w ui d in
    (r, d', FetchToken code :: FetchUserInfo (authorization_of tr) :: evs).
Proof.
  intros Hx Hp. unfold callback_try.
  rewrite bind_unfold, (exchange_ok _ _ _ _ Hx).
  rewrite bind_unfold, (profile_ok _ _ _ _ Hp).
  now destruct (callback_after_profile env w ui d) as [[r d'] evs].
Qed.

(** The callback of a profile the allow-list turns away. *)
Lemma callback_denied env w query srv code tok tr ui :
  passes_state_check w query srv = true ->
  q_code query = Some code ->
  q_state query = Some tok ->
  exchange_result w code = Some tr ->
  profile_result w tr = Some ui ->
  Js.includes (allowedEmails env) (userEmail_of ui) = false ->
  callback env w query srv =
    (Redirect ("/?error=" ++ Js.encodeURIComponent access_denied_message),
     set_oauthStates (delete tok (oauthStates srv)) srv,
     [FetchToken code; FetchUserInfo (authorization_of tr)]).
Proof.
  intros Hp Hc Hs Hx Hu Hdenied.
  rewrite (callback_passes env w query srv code tok Hp Hc Hs). simpl.
  unfold try_catch. rewrite (callback_try_profile env w code tr ui _ Hx Hu).
  unfold callback_after_profile. fold (userEmail_of ui). rewrite Hdenied. simpl.
  now destruct srv.
Qed.

(** C2. When the code exchange and the profile fetch succeed and the
    profile's address is not in the allow-list, the callback answers with
    the access-denied redirect; it has called the provider twice and
    nothing else: no user is looked up, created or updated, no token is
    signed, and the database is as it was. *)
Theorem denied_email_no_account_no_token env w query srv code tok tr ui :
  passes_state_check w query srv = true ->
  q_code query = Some code ->
  q_state query = Some tok ->
  exchange_result w code = Some tr ->
  profile_result w tr = Some ui ->
  Js.includes (allowedEmails env) (userEmail_of ui) = false ->
  let r := callback env w query srv in
  r.1.1 = Redirect ("/?error=" ++ Js.encodeURIComponent access_denied_message) /\
  r.2 = [FetchToken code; FetchUserInfo (authorization_of tr)] /\
  db r.1.2 = db srv /\
  (forall n pw x, DbCreateUser n pw x ∉ r.2) /\
  (forall i, DbUpdateLastLogin i ∉ r.2) /\
  (forall p, JwtSign p ∉ r.2).
Proof.
  intros Hp Hc Hs Hx Hu Hdenied r. subst r.
  rewrite (callback_denied env w query srv code tok tr ui Hp Hc Hs Hx Hu Hdenied).
  simpl. split_and!; try reflexivity; intros; intros Hin; event_cases Hin.
Qed.

(** *** The allow-list *)

Lemma includes_elem_of (xs : list string) (x : string) :
  Js.includes xs x = true <-> x ∈ xs.
Proof.
  unfold Js.includes. rewrite existsb_exists. split.
  - intros (y & Hy & Heq). apply String.eqb_eq in Heq as ->.
    now apply list_elem_of_In.
  - intros Hx. exists x. split; [now apply list_elem_of_In | apply String.eqb_refl].
Qed.

(** The allow-list admits an address exactly when its lowercase form
    is the trimmed, lowercased form of a configured entry. *)
Lemma allowed_iff env ui :
  Js.includes (allowedEmails env) (userEmail_of ui) = true <->
  exists entry,
    entry ∈ Js.split "," (Js.or_default (JANUA_ALLOWED_EMAILS env) "admin@madfam.io") /\
    Js.toLowerCase (Js.trim entry) = Js.toLowerCase (Js.or_default (email ui) "").
Proof.
  rewrite includes_elem_of. unfold allowedEmails, userEmail_of.
  rewrite list_elem_of_fmap. split; intros (entry & H1 & H2); exists entry; auto.
Qed.

Lemma find_or_create_user_cases ui d :
  find_or_create_user ui d =
    match getUserByUsername (sub ui) d with
    | Throw m => (Throw m, d, [DbGetUserByUsername (sub ui)])
    | Return None =>
        let extra := {| profile_email := email ui; profile_name := name ui;
                        oauth_provider := "janua"; oauth_user_id := sub ui |} in
        let '(r, d') := createUser (sub ui) None extra d in
        (r, d', [DbGetUserByUsername (sub ui); DbCreateUser (sub ui) None extra])
    | Return (Some u) =>
        let '(r, d') := updateLastLogin (user_id u) d in
        (match r with Return _ => Return u | Throw m => Throw m end, d',
         [DbGetUserByUsername (sub ui); DbUpdateLastLogin (user_id u)])
    end.
Proof.
  unfold find_or_create_user. rewrite bind_unfold. unfold db_read.
  destruct (getUserByUsername (sub ui) d) as [[u|]|m]; [| |reflexivity].
  - unfold mbind at 1. unfold M_bind, db_write.
    destruct (updateLastLogin (user_id u) d) as [[[]|m] d']; reflexivity.
  - unfold db_write. cbv zeta.
    match goal with |- context [createUser ?a ?b ?c ?d] =>
      now destruct (createUser a b c d) as [r d'] end.
Qed.

Lemma callback_after_profile_allowed env w ui d :
  Js.includes (allowedEmails env) (userEmail_of ui) = true ->
  callback_after_profile env w ui d =
    match find_or_create_user ui d with
    | (Return user, d', evs) =>
        let payload := {| userId := user_id user; username := user_username user |} in
        (match jwt_sign w payload (JWT_SECRET env) (JWT_EXPIRATION env) with
         | Return t => Return (Redirect ("/?token=" ++ t ++ "&oauth=janua"))
         | Throw m => Throw m
         end, d', (evs ++ [JwtSign payload])%list)
    | (Throw m, d', evs) => (Throw m, d', evs)
    end.
Proof.
  intros Hal. unfold callback_after_profile. fold (userEmail_of ui). rewrite Hal. simpl.
  rewrite bind_unfold.
  destruct (find_or_create_user ui d) as [[[user|m] d'] evs]; [|reflexivity].
  rewrite bind_unfold. unfold generateToken, call.
  now destruct (jwt_sign w _ _ _) as [t|m].
Qed.

(** A callback that gets past the allow-list goes on to the lookup of
    the local user. *)
Lemma callback_allowed_events env w query srv code tok tr ui :
  passes_state_check w query srv = true ->
  q_code query = Some code ->
  q_state query = Some tok ->
  exchange_result w code = Some tr ->
  profile_result w tr = Some ui ->
  Js.includes (allowedEmails env) (userEmail_of ui) = true ->
  exists rest,
    (callback env w query srv).2 =
      FetchToken code :: FetchUserInfo (authorization_of tr)
        :: DbGetUserByUsername (sub ui) :: rest.
Proof.
  intros Hp Hc Hs Hx Hu Hal.
  rewrite (callback_passes env w query srv code tok Hp Hc Hs). simpl.
  unfold try_catch. rewrite (callback_try_profile env w code tr ui _ Hx Hu).
  rewrite (callback_after_profile_allowed env w ui _ Hal), find_or_create_user_cases.
  destruct (getUserByUsername (sub ui) (db srv)) as [[u|]|m]; simpl.
  - destruct (updateLastLogin _ _) as [[[]|m] d']; simpl; [|eauto].
    destruct (jwt_sign w _ _ _); simpl; eauto.
  - destruct (createUser _ _ _ _) as [[u|m] d']; simpl; [|eauto].
    destruct (jwt_sign w _ _ _); simpl; eauto.
  - eauto.
Qed.

(** C10. The allow-list check ignores letter case: the configured
    entries are trimmed and lowercased, the profile's address is
    lowercased, and the two are compared.  So a callback whose profile
    address has the lowercase form of a trimmed entry gets past the
    check, to the lookup of the local user.  A profile without an address
    is checked as the empty string: it is answered with the access-denied
    redirect unless the empty string is in the allow-list, and gets past
    the check if it is. *)
Theorem allow_list_ignores_case env w query srv code tok tr ui :
  passes_state_check w query srv = true ->
  q_code query = Some code ->
  q_state query = Some tok ->
  exchange_result w code = Some tr ->
  profile_result w tr = Some ui ->
  let r := callback env w query srv in
  let configured := Js.or_default (JANUA_ALLOWED_EMAILS env) "admin@madfam.io" in
  let past_the_check := exists rest,
    r.2 = FetchToken code :: FetchUserInfo (authorization_of tr)
            :: DbGetUserByUsername (sub ui) :: rest in
  let denied :=
    r = (Redirect ("/?error=" ++ Js.encodeURIComponent access_denied_message),
         set_oauthStates (delete tok (oauthStates srv)) srv,
         [FetchToken code; FetchUserInfo (authorization_of tr)]) in
  ((exists entry, entry ∈ Js.split "," configured /\
      Js.toLowerCase (Js.trim entry) = Js.toLowerCase (Js.or_default (email ui) ""))
   -> past_the_check) /\
  ((forall entry, entry ∈ Js.split "," configured ->
      Js.toLowerCase (Js.trim entry) <> Js.toLowerCase (Js.or_default (email ui) ""))
   -> denied) /\
  (email ui = None -> Js.includes (allowedEmails env) "" = false -> denied) /\
  (email ui = None -> Js.includes (allowedEmails env) "" = true -> past_the_check).
Proof.
  intros Hp Hc Hs Hx Hu r configured past_the_check denied.
  assert (Hyes : Js.includes (allowedEmails env) (userEmail_of ui) = true -> past_the_check).
  { intros Hal. now apply (callback_allowed_events env w query srv code tok tr ui). }
  assert (Hno : Js.includes (allowedEmails env) (userEmail_of ui) = false -> denied).
  { intros Hal. now apply (callback_denied env w query srv code tok tr ui). }
  assert (Hempty : email ui = None -> userEmail_of ui = "").
  { intros He. unfold userEmail_of. rewrite He. apply Js.toLowerCase_empty. }
  split_and!.
  - intros Hex. apply Hyes. now apply allowed_iff.
  - intros Hall. apply Hno. apply not_true_is_false. intros Hal.
    apply allowed_iff in Hal as (entry & Hin & Heq). now apply (Hall entry).
  - intros He Hal. apply Hno. now rewrite (Hempty He).
  - intros He Hal. apply Hyes. now rewrite (Hempty He).
Qed.

(** *** Helpers on the provider calls and the state check *)

Lemma exchange_fails w code d :
  exchange_result w code = None ->
  exists m, exchangeCodeForToken w code d = (Throw m, d, [FetchToken code]).
Proof.
  unfold exchange_result, exchangeCodeForToken. rewrite bind_unfold. unfold call.
  destruct (token_endpoint w code) as [resp|m]; [|eauto].
  destruct (ok resp); simpl; [|eauto]. unfold lift.
  destruct (json resp) as [tr|m]; [discriminate | eauto].
Qed.

Lemma profile_fails w tr d :
  profile_result w tr = None ->
  exists m, getUserInfo w (access_token tr) d =
              (Throw m, d, [FetchUserInfo (authorization_of tr)]).
Proof.
  unfold profile_result, getUserInfo. fold (authorization_of tr).
  rewrite bind_unfold. unfold call.
  destruct (userinfo_endpoint w (authorization_of tr)) as [resp|m]; [|eauto].
  destruct (ok resp); simpl; [|eauto]. unfold lift.
  destruct (json resp) as [ui|m]; [discriminate | eauto].
Qed.

Lemma callback_not_passing env w query srv :
  passes_state_check w query srv = false ->
  (callback env w query srv).2 = [] /\
  db (callback env w query srv).1.2 = db srv /\
  exists indicator, (callback env w query srv).1.1 = Redirect ("/?error=" ++ indicator).
Proof.
  unfold passes_state_check, reaches_state_check, callback.
  destruct (Js.truthy (q_error query)); simpl; [eauto|].
  destruct (q_code query) as [code|]; simpl; [|eauto].
  destruct (q_state query) as [state|]; simpl; [|destruct (String.eqb code ""); eauto].
  destruct (String.eqb code ""); simpl; [eauto|].
  destruct (String.eqb state ""); simpl; [eauto|].
  destruct (oauthStates srv !! state) as [e|]; [|eauto].
  destruct (_ >? _); simpl; [eauto | discriminate].
Qed.

Lemma passes_state_check_inv w query srv :
  passes_state_check w query srv = true ->
  exists code tok, q_code query = Some code /\ q_state query = Some tok.
Proof.
  unfold passes_state_check. intros [Hreach Hp]%andb_prop.
  destruct (reaches_state_check_inv _ Hreach) as (_ & (code & Hc & _) & (tok & Hs & _)).
  eauto.
Qed.

(** The callback from the allow-list on, for a profile it admits. *)
Lemma callback_admitted env w query srv code tok tr ui :
  passes_state_check w query srv = true ->
  q_code query = Some code ->
  q_state query = Some tok ->
  exchange_result w code = Some tr ->
  profile_result w tr = Some ui ->
  Js.includes (allowedEmails env) (userEmail_of ui) = true ->
  callback env w query srv =
    let srv' := set_oauthStates (delete tok (oauthStates srv)) srv in
    match find_or_create_user ui (db srv) with
    | (Return user, d', evs) =>
        let payload := {| userId := user_id user; username := user_username user |} in
        (match jwt_sign w payload (JWT_SECRET env) (JWT_EXPIRATION env) with
         | Return t => Redirect ("/?token=" ++ t ++ "&oauth=janua")
         | Throw m => Redirect ("/?error=" ++ Js.encodeURIComponent m)
         end, set_db d' srv',
         FetchToken code :: FetchUserInfo (authorization_of tr) :: evs ++ [JwtSign payload])%list
    | (Throw m, d', evs) =>
        (Redirect ("/?error=" ++ Js.encodeURIComponent m), set_db d' srv',
         FetchToken code :: FetchUserInfo (authorization_of tr) :: evs)
    end.
Proof.
  intros Hp Hc Hs Hx Hu Hal.
  rewrite (callback_passes env w query srv code tok Hp Hc Hs). simpl.
  unfold try_catch. rewrite (callback_try_profile env w code tr ui _ Hx Hu).
  rewrite (callback_after_profile_allowed env w ui _ Hal).
  destruct (find_or_create_user ui (db srv)) as [[[user|m] d'] evs]; [|reflexivity].
  simpl. now destruct (jwt_sign w _ (JWT_SECRET env) (JWT_EXPIRATION env)).
Qed.

Lemma exchange_events w code d :
  exists r, exchangeCodeForToken w code d = (r, d, [FetchToken code]).
Proof.
  destruct (exchange_result w code) as [tr|] eqn:Hx.
  - rewrite (exchange_ok w code tr d Hx). eauto.
  - destruct (exchange_fails w code d Hx) as (m & ->). eauto.
Qed.

Lemma profile_events w tr d :
  exists r, getUserInfo w (access_token tr) d = (r, d, [FetchUserInfo (authorization_of tr)]).
Proof.
  destruct (profile_result w tr) as [ui|] eqn:Hu.
  - rewrite (profile_ok w tr ui d Hu). eauto.
  - destruct (profile_fails w tr d Hu) as (m & ->). eauto.
Qed.

(** *** Reconciliation with the local accounts *)

Lemma accepted_profile_inv env w query srv ui :
  accepted_profile env w query srv = Some ui ->
  exists code tok tr,
    passes_state_check w query srv = true /\
    q_code query = Some code /\ q_state query = Some tok /\
    exchange_result w code = Some tr /\ profile_result w tr = Some ui /\
    Js.includes (allowedEmails env) (userEmail_of ui) = true.
Proof.
  unfold accepted_profile.
  destruct (passes_state_check w query srv) eqn:Hp; [|discriminate].
  destruct (q_code query) as [code|] eqn:Hc; [|discriminate]. simpl.
  destruct (exchange_result w code) as [tr|] eqn:Hx; [|discriminate]. simpl.
  destruct (profile_result w tr) as [ui'|] eqn:Hu; [|discriminate]. simpl.
  destruct (Js.includes _ _) eqn:Hal; [|discriminate]. intros [= ->].
  assert (exists tok, q_state query = Some tok) as [tok Hs].
  { unfold passes_state_check in Hp. apply andb_prop in Hp as [_ Hp].
    destruct (q_state query) as [tok|]; [eauto | discriminate]. }
  exists code, tok, tr. auto 10.
Qed.

(** The events of an accepted callback, by what the database and the
    token library answer. *)
Lemma callback_accepted_events env w query srv ui :
  accepted_profile env w query srv = Some ui ->
  exists code tr,
    (callback env w query srv).2 =
      (FetchToken code :: FetchUserInfo (authorization_of tr) ::
       match find_or_create_user ui (db srv) with
       | (Return user, _, evs) =>
           evs ++ [JwtSign {| userId := user_id user; username := user_username user |}]
       | (Throw _, _, evs) => evs
       end)%list.
Proof.
  intros (code & tok & tr & Hp & Hc & Hs & Hx & Hu & Hal)%accepted_profile_inv.
  exists code, tr.
  rewrite (callback_passes env w query srv code tok Hp Hc Hs). simpl.
  unfold try_catch. rewrite (callback_try_profile env w code tr ui _ Hx Hu).
  rewrite (callback_after_profile_allowed env w ui _ Hal).
  destruct (find_or_create_user ui (db srv)) as [[[user|m] d'] evs]; [|reflexivity].
  simpl. now destruct (jwt_sign w _ (JWT_SECRET env) (JWT_EXPIRATION env)).
Qed.

Lemma logout_state env w authHeader srv :
  (logout env w authHeader srv).1.2 = srv.
Proof.
  unfold logout.
  destruct (bearer_token authHeader) as [token|]; [|now destruct srv].
  destruct (_ && _); [|now destruct srv].
  unfold try_catch, revokeToken, call.
  destruct (revoke_endpoint w token); now destruct srv.
Qed.

Lemma persists_refl d : persists d d.
Proof. now intros i v. Qed.

Lemma persists_trans d1 d2 d3 : persists d1 d2 -> persists d2 d3 -> persists d1 d3.
Proof. intros H12 H23 i v Hi. now apply H23, H12. Qed.

(** Reconciliation keeps the database in order and the stored users in place. *)
Lemma find_or_create_user_keeps {db_ok} `{!UserDbLaws DB db_ok} ui d :
  db_ok d ->
  db_ok (find_or_create_user ui d).1.2 /\ persists d (find_or_create_user ui d).1.2.
Proof.
  intros Hok. rewrite find_or_create_user_cases.
  destruct (getUserByUsername (sub ui) d) as [[u|]|m].
  - destruct (updateLastLogin (user_id u) d) as [r d'] eqn:Hupd.
    destruct r as [[]|m]; simpl; eapply updateLastLogin_keeps; eauto.
  - cbv zeta.
    match goal with |- context [createUser ?a ?b ?c ?d] =>
      destruct (createUser a b c d) as [r d'] eqn:Hcreate end.
    simpl. eapply createUser_keeps; eauto.
  - simpl. auto using persists_refl.
Qed.

(** So does every callback. *)
Lemma callback_keeps {db_ok} `{!UserDbLaws DB db_ok} env w query srv :
  db_ok (db srv) ->
  db_ok (db (callback env w query srv).1.2) /\
  persists (db srv) (db (callback env w query srv).1.2).
Proof.
  intros Hok. destruct (passes_state_check w query srv) eqn:Hp.
  - destruct (passes_state_check_inv _ _ _ Hp) as (code & tok & Hc & Hs).
    rewrite (callback_passes env w query srv code tok Hp Hc Hs). simpl.
    unfold try_catch, callback_try. rewrite bind_unfold.
    destruct (exchange_events w code (db srv)) as ([tr|m] & ->);
      [|simpl; auto using persists_refl].
    rewrite bind_unfold.
    destruct (profile_events w tr (db srv)) as ([ui|m] & ->);
      [|simpl; auto using persists_refl].
    destruct (Js.includes (allowedEmails env) (userEmail_of ui)) eqn:Hal.
    + rewrite (callback_after_profile_allowed env w ui _ Hal).
      pose proof (find_or_create_user_keeps ui (db srv) Hok) as Hkeeps.
      destruct (find_or_create_user ui (db srv)) as [[[u|m] d'] evs]; simpl in *;
        [|assumption].
      now destruct (jwt_sign w _ (JWT_SECRET env) (JWT_EXPIRATION env)).
    + unfold callback_after_profile. fold (userEmail_of ui). rewrite Hal. simpl.
      auto using persists_refl.
  - destruct (callback_not_passing env w query srv Hp) as (_ & -> & _).
    auto using persists_refl.
Qed.

Lemma run_keeps {db_ok} `{!UserDbLaws DB db_ok} env reqs srv :
  db_ok (db srv) ->
  db_ok (db (run env reqs srv)) /\ persists (db srv) (db (run env reqs srv)).
Proof.
  revert srv. induction reqs as [|req reqs IH]; intros srv Hok;
    [auto using persists_refl|].
  change (run env (req :: reqs) srv) with (run env reqs (serve env req srv).1.2).
  assert (Hstep : db_ok (db (serve env req srv).1.2) /\
                  persists (db srv) (db (serve env req srv).1.2)).
  { destruct req as [w|w query|w authHeader]; simpl.
    - unfold login. destruct (negb _); simpl; auto using persists_refl.
    - now apply callback_keeps.
    - rewrite logout_state. auto using persists_refl. }
  destruct Hstep as [Hok' Hp']. destruct (IH _ Hok') as [Hok'' Hp''].
  split; [assumption | eapply persists_trans; eassumption].
Qed.

(** An event of an explicit list. *)
Ltac event_here := repeat (apply elem_of_cons; first [left; reflexivity | right]).

(** What an accepted callback did with the profile. *)
Lemma accepted_reconciled {db_ok} `{!UserDbLaws DB db_ok} env w query srv ui :
  db_ok (db srv) ->
  accepted_profile env w query srv = Some ui ->
  reconciled env w ui (db srv) (callback env w query srv).
Proof.
  intros Hok (code & tok & tr & Hp & Hc & Hs & Hx & Hu & Hal)%accepted_profile_inv.
  rewrite (callback_admitted env w query srv code tok tr ui Hp Hc Hs Hx Hu Hal).
  rewrite find_or_create_user_cases. unfold reconciled, keyed_by_subject.
  destruct (getUserByUsername (sub ui) (db srv)) as [[u|]|m] eqn:Hget.
  - destruct (found_is_stored _ _ _ Hok Hget) as [Hname _].
    destruct (updateLastLogin (user_id u) (db srv)) as [[[]|m] d'] eqn:Hupd; simpl.
    + destruct (jwt_sign w _ (JWT_SECRET env) (JWT_EXPIRATION env)) as [t|m] eqn:Hsign;
        simpl; split_and!;
        try event_here; try discriminate;
        try (intros; match goal with H : _ ∈ _ |- _ => event_cases H end;
             simplify_eq; now eauto).
      * intros u0 [= <-]. split_and!; [event_here | |];
          intros; intros_in; simplify_eq; reflexivity.
      * right. eexists _, t. split_and!; [event_here | exact Hsign | reflexivity].
      * intros u0 [= <-]. split_and!; [event_here | |];
          intros; intros_in; simplify_eq; reflexivity.
      * left. eauto.
    + split_and!;
        try event_here; try discriminate;
        try (intros; match goal with H : _ ∈ _ |- _ => event_cases H end;
             simplify_eq; now eauto).
      * intros u0 [= <-]. split_and!; [event_here | |];
          intros; intros_in; simplify_eq; reflexivity.
      * left. eauto.
  - cbv zeta.
    match goal with |- context [createUser ?a ?b ?c ?d] =>
      destruct (createUser a b c d) as [[u|m] d'] eqn:Hcreate end; simpl.
    + destruct (created_is_stored _ _ _ _ _ _ Hok Hcreate) as [Hname _].
      destruct (jwt_sign w _ (JWT_SECRET env) (JWT_EXPIRATION env)) as [t|m] eqn:Hsign;
        simpl; split_and!;
        try event_here; try discriminate;
        try (intros; match goal with H : _ ∈ _ |- _ => event_cases H end;
             simplify_eq; now eauto).
      * intros _. split_and!; [event_here | |];
          intros; intros_in; simplify_eq; eauto.
      * right. eexists _, t. split_and!; [event_here | exact Hsign | reflexivity].
      * intros _. split_and!; [event_here | |];
          intros; intros_in; simplify_eq; eauto.
      * left. eauto.
    + split_and!;
        try event_here; try discriminate;
        try (intros; match goal with H : _ ∈ _ |- _ => event_cases H end;
             simplify_eq; now eauto).
      * intros _. split_and!; [event_here | |];
          intros; intros_in; simplify_eq; eauto.
      * left. eauto.
  - simpl. split_and!;
      try event_here; try discriminate;
      try (intros; match goal with H : _ ∈ _ |- _ => event_cases H end;
           simplify_eq; now eauto).
    left. eauto.
Qed.

(** The user a token is signed for is stored under its id afterwards. *)
Lemma signed_user_is_stored {db_ok} `{!UserDbLaws DB db_ok} env w query srv ui p :
  db_ok (db srv) ->
  accepted_profile env w query srv = Some ui ->
  JwtSign p ∈ (callback env w query srv).2 ->
  exists u, p = payload_of u /\ user_username u = sub ui /\
            getUserById (user_id u) (db (callback env w query srv).1.2) = Return (Some u).
Proof.
  intros Hok Hacc Hin.
  destruct (accepted_reconciled env w query srv ui Hok Hacc) as (_ & Hfound & Hnew & _).
  destruct (callback_keeps env w query srv Hok) as [_ Hpersists].
  destruct (getUserByUsername (sub ui) (db srv)) as [[u|]|m] eqn:Hget.
  - destruct (Hfound u eq_refl) as (_ & _ & Hp). exists u.
    destruct (found_is_stored _ _ _ Hok Hget) as [Hname Hstored].
    split_and!; [now apply Hp | assumption | now apply Hpersists].
  - destruct (Hnew eq_refl) as (_ & _ & Hp).
    destruct (Hp p Hin) as (u & Hcreate & ->). exists u.
    destruct (created_is_stored _ _ _ _ _ _ Hok Hcreate) as [Hname Hstored]. auto.
  - exfalso. revert Hin.
    apply accepted_profile_inv in Hacc as (code & tok & tr & Hp & Hc & Hs & Hx & Hu & Hal).
    rewrite (callback_admitted env w query srv code tok tr ui Hp Hc Hs Hx Hu Hal).
    rewrite find_or_create_user_cases, Hget. simpl. intros Hin. event_cases Hin.
Qed.

(** C9. An accepted callback looks the local user up by the profile's
    subject and by nothing else.  When the lookup finds a user, that
    user's last login is updated, nobody is created and the token is
    signed for the row found; when it finds nobody, a user is created
    under the subject, without password, and the token is signed for the
    user created; the address appears only in the new user's profile
    data, and a redirect with a token carries the token so signed.  On a
    database in order, two accepted identities with different subjects,
    the second signing in after the first and after any further requests,
    are signed in as users with different ids and different names,
    whatever their addresses. *)
Theorem accounts_keyed_by_subject {db_ok} `{!UserDbLaws DB db_ok}
    env w1 query1 srv1 ui1 reqs w2 query2 ui2 :
  db_ok (db srv1) ->
  accepted_profile env w1 query1 srv1 = Some ui1 ->
  accepted_profile env w2 query2 (run env reqs (callback env w1 query1 srv1).1.2)
    = Some ui2 ->
  let r1 := callback env w1 query1 srv1 in
  let srv2 := run env reqs r1.1.2 in
  let r2 := callback env w2 query2 srv2 in
  reconciled env w1 ui1 (db srv1) r1 /\
  reconciled env w2 ui2 (db srv2) r2 /\
  (sub ui1 <> sub ui2 ->
   forall p1 p2, JwtSign p1 ∈ r1.2 -> JwtSign p2 ∈ r2.2 ->
     userId p1 <> userId p2 /\ username p1 <> username p2).
Proof.
  intros Hok H1 H2 r1 srv2 r2.
  destruct (callback_keeps env w1 query1 srv1 Hok) as [Hok1 _]. fold r1 in Hok1.
  destruct (run_keeps env reqs r1.1.2 Hok1) as [Hok2 Hrun]. fold srv2 in Hok2, Hrun.
  destruct (callback_keeps env w2 query2 srv2 Hok2) as [_ Hlast]. fold r2 in Hlast.
  split_and!.
  - now apply accepted_reconciled.
  - now apply accepted_reconciled.
  - intros Hne p1 p2 Hp1 Hp2.
    destruct (signed_user_is_stored env w1 query1 srv1 ui1 p1 Hok H1 Hp1)
      as (u1 & -> & Hn1 & Hs1).
    destruct (signed_user_is_stored env w2 query2 srv2 ui2 p2 Hok2 H2 Hp2)
      as (u2 & -> & Hn2 & Hs2).
    fold r1 in Hs1. fold r2 in Hs2. simpl. split; [|congruence].
    intros Hid. apply Hrun, Hlast in Hs1. rewrite Hid, Hs2 in Hs1.
    injection Hs1 as ->. congruence.
Qed.

(** *** Failed callbacks *)

Lemma uri_safe_app (a b : string) :
  Js.uri_safe (a ++ b) = Js.uri_safe a && Js.uri_safe b.
Proof.
  unfold Js.uri_safe. induction a as [|c a IH]; [reflexivity|].
  simpl. now rewrite IH, andb_assoc.
Qed.

Lemma uri_safe_percent (c : ascii) : Js.uri_safe (Js.percent c) = true.
Proof. destruct c as [[] [] [] [] [] [] [] []]; reflexivity. Qed.

(** [encodeURIComponent] gives one query value. *)
Lemma encodeURIComponent_safe (s : string) :
  Js.uri_safe (Js.encodeURIComponent s) = true.
Proof.
  induction s as [|c s IH]; [reflexivity|].
  simpl. rewrite uri_safe_app, IH, andb_true_r.
  destruct (Js.uri_unreserved c) eqn:Hc; [|apply uri_safe_percent].
  unfold Js.uri_safe. simpl. now rewrite Hc.
Qed.

(** What the [try] block returns is the access-denied redirect or the
    redirect with the session token. *)
Lemma callback_try_returns env w code d res d' evs :
  callback_try env w code d = (Return res, d', evs) ->
  res = Redirect ("/?error=" ++ Js.encodeURIComponent access_denied_message) \/
  exists t, res = Redirect ("/?token=" ++ t ++ "&oauth=janua").
Proof.
  unfold callback_try. rewrite bind_unfold.
  destruct (exchangeCodeForToken w code d) as [[[tr|] d1] evs1]; [|discriminate].
  rewrite bind_unfold.
  destruct (getUserInfo w (access_token tr) d1) as [[[ui|] d2] evs2]; [|discriminate].
  unfold callback_after_profile.
  destruct (negb _).
  - intros [= <- _ _]. now left.
  - rewrite bind_unfold.
    destruct (find_or_create_user ui d2) as [[[u|] d3] evs3]; [|discriminate].
    rewrite bind_unfold.
    destruct (generateToken env w u d3) as [[[t|] d4] evs4]; [|discriminate].
    intros [= <- _ _]. right. now exists t.
Qed.

Lemma exchange_refused w code resp d :
  token_endpoint w code = Return resp -> ok resp = false ->
  exchangeCodeForToken w code d =
    (Throw ("Token exchange failed: " ++ text resp), d, [FetchToken code]).
Proof.
  intros Hr Hok. unfold exchangeCodeForToken. rewrite bind_unfold. unfold call.
  now rewrite Hr, Hok.
Qed.

Lemma profile_refused w tr resp d :
  userinfo_endpoint w (authorization_of tr) = Return resp -> ok resp = false ->
  getUserInfo w (access_token tr) d =
    (Throw ("Failed to get user info: " ++ text resp), d,
     [FetchUserInfo (authorization_of tr)]).
Proof.
  intros Hr Hok. unfold getUserInfo. fold (authorization_of tr).
  rewrite bind_unfold. unfold call. now rewrite Hr, Hok.
Qed.

(** C4, as the code has it. Every answer of the callback is a redirect
    to the application root, [/?token=...] or [/?error=<indicator>], and
    the indicator is a single URI-encoded query value.  It is a fixed
    code for missing parameters and for an unknown or expired state, and
    it is the URI-encoded text of what went wrong otherwise: of the
    provider's [error_description] (or [error]) parameter, and, when the
    token or userinfo endpoint answers with a failure status, of
    [Token exchange failed: ] or [Failed to get user info: ] followed by
    the body the provider sent. *)
Theorem failed_callback_redirects env w query srv :
  let r := callback env w query srv in
  ((exists t, r.1.1 = Redirect ("/?token=" ++ t ++ "&oauth=janua")) \/
   (exists m, r.1.1 = Redirect ("/?error=" ++ Js.encodeURIComponent m))) /\
  (forall m, Js.uri_safe (Js.encodeURIComponent m) = true) /\
  (Js.truthy (q_error query) = true ->
     r = (Redirect ("/?error=" ++ Js.encodeURIComponent
            (Js.to_string (Js.or (q_error_description query) (q_error query)))), srv, [])) /\
  (Js.truthy (q_error query) = false -> reaches_state_check query = false ->
     r = (Redirect "/?error=missing_parameters", srv, [])) /\
  (reaches_state_check query = true -> passes_state_check w query srv = false ->
     r.2 = [] /\ db r.1.2 = db srv /\
     (r.1.1 = Redirect "/?error=invalid_state" \/ r.1.1 = Redirect "/?error=state_expired")) /\
  (forall code resp,
     passes_state_check w query srv = true -> q_code query = Some code ->
     token_endpoint w code = Return resp -> ok resp = false ->
     r.1.1 = Redirect ("/?error=" ++
               Js.encodeURIComponent ("Token exchange failed: " ++ text resp)) /\
     r.2 = [FetchToken code] /\ db r.1.2 = db srv) /\
  (forall code tr resp,
     passes_state_check w query srv = true -> q_code query = Some code ->
     exchange_result w code = Some tr ->
     userinfo_endpoint w (authorization_of tr) = Return resp -> ok resp = false ->
     r.1.1 = Redirect ("/?error=" ++
               Js.encodeURIComponent ("Failed to get user info: " ++ text resp)) /\
     r.2 = [FetchToken code; FetchUserInfo (authorization_of tr)] /\ db r.1.2 = db srv).
Proof.
  intros r. subst r. split_and!.
  - unfold callback.
    destruct (Js.truthy (q_error query)); [right; eauto|].
    destruct (q_code query) as [code|]; [|right; now exists "missing_parameters"].
    destruct (q_state query) as [state|]; [|right; now exists "missing_parameters"].
    destruct (_ || _); [right; now exists "missing_parameters"|].
    destruct (oauthStates srv !! state) as [e|]; [|right; now exists "invalid_state"].
    destruct (_ >? _); [right; now exists "state_expired"|].
    unfold try_catch. simpl.
    destruct (callback_try env w code (db srv)) as [[[res|m] d'] evs] eqn:Htry; simpl.
    + apply callback_try_returns in Htry as [->|[t ->]]; eauto.
    + eauto.
  - apply encodeURIComponent_safe.
  - intros Herr. unfold callback. now rewrite Herr.
  - intros Herr. unfold callback, reaches_state_check. rewrite Herr. simpl.
    destruct (q_code query) as [code|]; [|reflexivity].
    destruct (q_state query) as [state|]; [|now destruct (String.eqb code "")].
    simpl. destruct (String.eqb code ""); simpl; [reflexivity|].
    destruct (String.eqb state ""); simpl; [reflexivity | discriminate].
  - intros Hreach. unfold passes_state_check. rewrite Hreach. simpl.
    destruct (reaches_state_check_inv _ Hreach) as (Herr & (c & Hc & Hc') & (t & Hs & Ht)).
    unfold callback. rewrite Herr, Hc, Hs, Hc', Ht. simpl.
    destruct (oauthStates srv !! t) as [e|]; [|auto].
    destruct (_ >? _); [auto | discriminate].
  - intros code resp Hp Hc Hr Hok.
    assert (exists tok, q_state query = Some tok) as [tok Hs].
    { unfold passes_state_check in Hp. apply andb_prop in Hp as [_ Hp].
      destruct (q_state query) as [tok|]; [eauto | discriminate]. }
    rewrite (callback_passes env w query srv code tok Hp Hc Hs). simpl.
    unfold try_catch, callback_try.
    now rewrite bind_unfold, (exchange_refused w code resp _ Hr Hok).
  - intros code tr resp Hp Hc Hx Hr Hok.
    assert (exists tok, q_state query = Some tok) as [tok Hs].
    { unfold passes_state_check in Hp. apply andb_prop in Hp as [_ Hp].
      destruct (q_state query) as [tok|]; [eauto | discriminate]. }
    rewrite (callback_passes env w query srv code tok Hp Hc Hs). simpl.
    unfold try_catch, callback_try.
    rewrite bind_unfold, (exchange_ok w code tr _ Hx).
    now rewrite bind_unfold, (profile_refused w tr resp _ Hr Hok).
Qed.

(** C7. A callback presenting a state token whose expiry time has passed
    is rejected although the entry is still in the store: it makes no call
    to the provider and answers with an error redirect; when it gets as far
    as the state check the answer is [/?error=state_expired] and the entry
    is deleted. *)
Theorem expired_state_rejected env w query srv tok e :
  q_state query = Some tok ->
  oauthStates srv !! tok = Some e ->
  expiresAt e < Date_now w ->
  let r := callback env w query srv in
  r.2 = [] /\
  db r.1.2 = db srv /\
  (exists indicator, r.1.1 = Redirect ("/?error=" ++ indicator)) /\
  (reaches_state_check query = true ->
   r.1.1 = Redirect "/?error=state_expired" /\
   oauthStates r.1.2 = delete tok (oauthStates srv)).
Proof.
  intros Hs Hl Hexp. unfold callback, reaches_state_check. rewrite Hs.
  destruct (Js.truthy (q_error query)); simpl; [split_and!; eauto; easy|].
  destruct (q_code query) as [code|]; simpl; [|split_and!; eauto; easy].
  destruct (String.eqb code ""); simpl; [split_and!; eauto; easy|].
  destruct (String.eqb tok ""); simpl; [split_and!; eauto; easy|].
  rewrite Hl.
  destruct (Z.gtb_spec (Date_now w) (expiresAt e)); [|lia].
  simpl. split_and!; eauto.
Qed.

(** ** The login endpoint and the URL builder *)

Lemma isConfigured_false env :
  Js.truthy (JANUA_CLIENT_ID env) = false \/ Js.truthy (JANUA_CLIENT_SECRET env) = false ->
  isConfigured (new_JanuaClient env) = false.
Proof.
  unfold isConfigured, new_JanuaClient. simpl.
  intros [-> | ->]; [reflexivity | apply andb_false_r].
Qed.

(** C5, as the code has it.  The check for the client id and secret is
    the login endpoint's: when either is unset it answers 500 with a
    configuration error, before the URL builder is called; it stores no
    state token and calls nobody. *)
Theorem login_unconfigured_is_refused env w srv :
  Js.truthy (JANUA_CLIENT_ID env) = false \/ Js.truthy (JANUA_CLIENT_SECRET env) = false ->
  login env w srv =
    (Json 500 [("error", JStr "Janua OAuth2 not configured");
               ("hint", JStr "Set JANUA_CLIENT_ID and JANUA_CLIENT_SECRET environment variables")],
     srv, []).
Proof.
  intros Hunset. unfold login. now rewrite (isConfigured_false env Hunset).
Qed.

(** ** The middleware *)

Lemma jwt_try_invalid env w token m d :
  jwt_verify w token (JWT_SECRET env) = Throw m ->
  jwt_try env w token d = (Throw m, d, [JwtVerify token]).
Proof.
  intros Hv. unfold jwt_try. rewrite bind_unfold. unfold call. now rewrite Hv.
Qed.

Lemma jwt_try_no_user env w token claims d :
  jwt_verify w token (JWT_SECRET env) = Return claims ->
  getUserById (userId claims) d = Return None ->
  jwt_try env w token d =
    (Return (Respond (Json 401 (error_body "Invalid token. User not found."))), d,
     [JwtVerify token; DbGetUserById (userId claims)]).
Proof.
  intros Hv Hu. unfold jwt_try. rewrite bind_unfold. unfold call. rewrite Hv.
  rewrite bind_unfold. unfold db_read. now rewrite Hu.
Qed.

Lemma authenticateToken_jwt env w authHeader token d :
  is_true (VITE_IS_PLATFORM env) = false ->
  bearer_token authHeader = Some token -> token <> "" ->
  authenticateToken env w authHeader d =
    try_catch (jwt_try env w token)
      (fun _ => Respond (Json 403 (error_body "Invalid token"))) d.
Proof.
  intros Hp Ht Hne. unfold authenticateToken. rewrite Hp, Ht.
  now apply String.eqb_neq in Hne as ->.
Qed.

(** C3, as the code has it.  Outside platform mode: a request without
    an Authorization header, or with one that carries no token, is
    refused with 401; a request whose token fails verification is refused
    with 403 and the body [Invalid token]. *)
Theorem authenticateToken_refusals env w authHeader d :
  is_true (VITE_IS_PLATFORM env) = false ->
  let r := authenticateToken env w authHeader d in
  (Js.truthy (bearer_token authHeader) = false ->
     r = (Respond (Json 401 (error_body "Access denied. No token provided.")), d, [])) /\
  (authHeader = None -> refusal_status r.1.1 = Some 401) /\
  (forall token m,
     bearer_token authHeader = Some token -> token <> "" ->
     jwt_verify w token (JWT_SECRET env) = Throw m ->
     r = (Respond (Json 403 (error_body "Invalid token")), d, [JwtVerify token]) /\
     refusal_status r.1.1 = Some 403).
Proof.
  intros Hp r. subst r.
  assert (Hnone : Js.truthy (bearer_token authHeader) = false ->
    authenticateToken env w authHeader d =
      (Respond (Json 401 (error_body "Access denied. No token provided.")), d, [])).
  { unfold authenticateToken. rewrite Hp.
    destruct (bearer_token authHeader) as [t|]; [|reflexivity].
    simpl. intros Ht. apply negb_false_iff in Ht. now rewrite Ht. }
  split_and!.
  - assumption.
  - intros ->. now rewrite Hnone.
  - intros token m Ht Hne Hv.
    rewrite (authenticateToken_jwt env w authHeader token d Hp Ht Hne).
    unfold try_catch. now rewrite (jwt_try_invalid env w token m d Hv).
Qed.

(** C6, as the code has it.  Outside platform mode, a request whose token
    verifies but whose
    [userId] is no longer in the database is refused with 401. *)
Theorem deleted_user_is_unauthenticated env w authHeader token claims d :
  is_true (VITE_IS_PLATFORM env) = false ->
  bearer_token authHeader = Some token -> token <> "" ->
  jwt_verify w token (JWT_SECRET env) = Return claims ->
  getUserById (userId claims) d = Return None ->
  let r := authenticateToken env w authHeader d in
  r = (Respond (Json 401 (error_body "Invalid token. User not found.")), d,
       [JwtVerify token; DbGetUserById (userId claims)]) /\
  refusal_status r.1.1 = Some 401.
Proof.
  intros Hp Ht Hne Hv Hu r. subst r.
  rewrite (authenticateToken_jwt env w authHeader token d Hp Ht Hne).
  unfold try_catch. now rewrite (jwt_try_no_user env w token claims d Hv Hu).
Qed.

(** ** Logout *)

(** C8. Every logout is answered with the success body, status 200,
    whatever the Authorization header, the configuration and the outcome
    of the revocation call; the server state is as it was, and the only
    call made is the revocation, and only when there is a token and the
    client is configured. *)
Theorem logout_always_succeeds env w authHeader srv :
  let r := logout env w authHeader srv in
  r.1.1 = Json 200 [("success", JBool true); ("message", JStr "Logged out successfully")] /\
  r.1.2 = srv /\
  (r.2 = [] \/
   exists token, bearer_token authHeader = Some token /\ r.2 = [FetchRevoke token]).
Proof.
  intros r. subst r. unfold logout.
  destruct (bearer_token authHeader) as [token|]; [|destruct srv; auto].
  destruct (_ && _); [|destruct srv; auto].
  unfold try_catch, revokeToken, call.
  destruct (revoke_endpoint w token); destruct srv; simpl; eauto 6.
Qed.

End Properties.

(** * The properties on the sample deployment *)

(** ** The modelled credential store keeps the laws *)

Lemma find_app_first {A} (f : A -> bool) (l1 l2 : list A) :
  find f (l1 ++ l2)%list =
    match find f l1 with
    | Some x => Some x
    | None => find f l2
    end.
Proof.
  induction l1 as [|a l1 IH]; [reflexivity|].
  simpl. now destruct (f a).
Qed.

Lemma forallb_of_map {A B} (f : B -> bool) (g : A -> B) (l : list A) :
  forallb f (map g l) = forallb (fun a => f (g a)) l.
Proof. induction l as [|a l IH]; [reflexivity|]. simpl. now rewrite IH. Qed.

Lemma forallb_same {A} (f g : A -> bool) (l : list A) :
  (forall a, f a = g a) -> forallb f l = forallb g l.
Proof. intros Hfg. induction l as [|a l IH]; [reflexivity|]. simpl. now rewrite Hfg, IH. Qed.

Lemma find_by_id_distinct (rs : list MemDb.Row) (r : MemDb.Row) :
  MemDb.distinct_ids rs = true -> In r rs ->
  find (MemDb.by_id (MemDb.row_id r)) rs = Some r.
Proof.
  induction rs as [|a rs IH]; [contradiction|].
  simpl. intros [Ha Hrs]%andb_prop [<-|Hin].
  - unfold MemDb.by_id. now rewrite Z.eqb_refl.
  - rewrite forallb_forall in Ha. specialize (Ha r Hin).
    apply negb_true_iff in Ha. unfold MemDb.by_id in *.
    rewrite Z.eqb_sym, Ha. now apply IH.
Qed.

Lemma find_by_id_above (rs : list MemDb.Row) (bound : Z) :
  forallb (fun r => MemDb.row_id r <? bound) rs = true ->
  find (MemDb.by_id bound) rs = None.
Proof.
  induction rs as [|a rs IH]; [reflexivity|].
  simpl. intros [Ha Hrs]%andb_prop. unfold MemDb.by_id at 1.
  apply Z.ltb_lt in Ha.
  destruct (Z.eqb_spec (MemDb.row_id a) bound); [lia | now apply IH].
Qed.

Lemma distinct_ids_snoc (rs : list MemDb.Row) (r : MemDb.Row) :
  MemDb.distinct_ids rs = true ->
  forallb (fun r' => MemDb.row_id r' <? MemDb.row_id r) rs = true ->
  MemDb.distinct_ids (rs ++ [r]) = true.
Proof.
  induction rs as [|a rs IH]; [reflexivity|].
  simpl. intros [Ha Hrs]%andb_prop [Hlt Hbelow]%andb_prop.
  rewrite forallb_app, Ha, (IH Hrs Hbelow). simpl.
  unfold MemDb.by_id. apply Z.ltb_lt in Hlt.
  destruct (Z.eqb_spec (MemDb.row_id r) (MemDb.row_id a)); [lia | reflexivity].
Qed.

Lemma touch_row_id i now (r : MemDb.Row) :
  MemDb.row_id (MemDb.touch i now r) = MemDb.row_id r.
Proof. unfold MemDb.touch. now destruct (MemDb.by_id i r). Qed.

Lemma touch_to_user i now (r : MemDb.Row) :
  MemDb.to_user (MemDb.touch i now r) = MemDb.to_user r.
Proof. unfold MemDb.touch. now destruct (MemDb.by_id i r). Qed.

Lemma distinct_ids_touch i now (rs : list MemDb.Row) :
  MemDb.distinct_ids (map (MemDb.touch i now) rs) = MemDb.distinct_ids rs.
Proof.
  induction rs as [|a rs IH]; [reflexivity|].
  simpl. rewrite IH, forallb_of_map. f_equal.
  apply forallb_same. intros r. unfold MemDb.by_id. now rewrite !touch_row_id.
Qed.

Lemma find_by_id_touch i now j (rs : list MemDb.Row) :
  find (MemDb.by_id j) (map (MemDb.touch i now) rs)
    = option_map (MemDb.touch i now) (find (MemDb.by_id j) rs).
Proof.
  induction rs as [|a rs IH]; [reflexivity|].
  simpl. unfold MemDb.by_id at 1 3. rewrite touch_row_id.
  now destruct (MemDb.row_id a =? j).
Qed.

#[export] Instance MemDb_laws :
  @UserDbLaws MemDb.t MemDb.userDb (fun d => MemDb.wf d = true).
Proof.
  split.
  - intros n d u [Hdistinct _]%andb_prop. simpl.
    unfold MemDb.get_by_username, MemDb.get_by_id.
    destruct (find (MemDb.by_username n) (MemDb.rows d)) as [r|] eqn:Hfind; [|discriminate].
    apply find_some in Hfind as [Hin Hname]. apply String.eqb_eq in Hname.
    intros [= <-]. split; [assumption|].
    simpl. now rewrite (find_by_id_distinct _ _ Hdistinct Hin).
  - intros n pw x d u d' [_ Hbelow]%andb_prop. simpl. unfold MemDb.create, MemDb.get_by_id.
    destruct (find (MemDb.by_username n) (MemDb.rows d)); [discriminate|].
    intros [= <- <-]. simpl. split; [reflexivity|].
    rewrite find_app_first, (find_by_id_above _ _ Hbelow). simpl.
    unfold MemDb.by_id. simpl. now rewrite Z.eqb_refl.
  - intros n pw x d r d' Hwf. simpl. unfold MemDb.create.
    destruct (find (MemDb.by_username n) (MemDb.rows d)).
    + intros [= _ <-]. split; [assumption | now intros i v].
    + intros [= _ <-]. apply andb_prop in Hwf as [Hdistinct Hbelow]. split.
      * unfold MemDb.wf. simpl.
        match goal with |- context [MemDb.distinct_ids (_ ++ [?r0])] =>
          rewrite (distinct_ids_snoc _ r0 Hdistinct Hbelow) end.
        rewrite forallb_app. simpl.
        assert (Hnext : (MemDb.next_id d <? MemDb.next_id d + 1) = true)
          by (apply Z.ltb_lt; lia).
        rewrite Hnext, andb_true_r. simpl.
        rewrite forallb_forall in Hbelow |- *. intros r0 Hr0.
        specialize (Hbelow r0 Hr0). apply Z.ltb_lt in Hbelow. apply Z.ltb_lt. lia.
      * intros i v. simpl. unfold MemDb.get_by_id. simpl. rewrite find_app_first.
        now destruct (find (MemDb.by_id i) (MemDb.rows d)).
  - intros i d r d' Hwf. simpl. unfold MemDb.update_last_login. intros [= _ <-].
    apply andb_prop in Hwf as [Hdistinct Hbelow]. split.
    + unfold MemDb.wf. simpl. rewrite distinct_ids_touch, Hdistinct, forallb_of_map. simpl.
      erewrite forallb_same; [exact Hbelow|]. intros r0. simpl. now rewrite touch_row_id.
    + intros j v. simpl. unfold MemDb.get_by_id. simpl. rewrite find_by_id_touch.
      destruct (find (MemDb.by_id j) (MemDb.rows d)) as [r0|]; [|discriminate].
      simpl. now rewrite touch_to_user.
Qed.

Section OnTheSample.

#[local] Existing Instance Js.AsciiStrings.
#[local] Existing Instance MemDb.userDb.

Import Sample.

(** The built-ins on some inputs. *)
Example split_comma : Js.split "," "a@x.io, B@x.io," = ["a@x.io"; " B@x.io"; ""].
Proof. reflexivity. Qed.

Example split_bearer : bearer_token (Some "Bearer abc.def") = Some "abc.def".
Proof. reflexivity. Qed.

Example split_no_token : bearer_token (Some "Bearer") = None.
Proof. reflexivity. Qed.

Example encodeURIComponent_message :
  Js.encodeURIComponent "Failed to get user info: {'e':1}"
  = "Failed%20to%20get%20user%20info%3A%20%7B'e'%3A1%7D".
Proof. reflexivity. Qed.

Example default_allow_list : allowedEmails env = ["admin@madfam.io"].
Proof. reflexivity. Qed.

Example login_redirect :
  (login env (world 1000 admin) server0).1.1 =
    Redirect ("https://auth.madfam.io/api/v1/oauth/authorize?client_id=jnc_client&redirect_uri=https%3A%2F%2Fagents.madfam.io%2Fauth%2Fcallback&response_type=code&scope=openid+profile+email+agent%3Aview+agent%3Acontrol&state=" ++ token).
Proof. vm_compute. reflexivity. Qed.

(** In platform mode the middleware does not look at the token: the
    request goes through as the first user of the store. *)
Example platform_mode_skips_the_token :
  (authenticateToken env_platform (world 5000 admin) None (db server2)).1.1
  = Next {| user_id := 1; user_username := "janua|1" |}.
Proof. vm_compute. reflexivity. Qed.

(** The token of the first login is consumed by its callback; a replay
    half a minute later is answered with [invalid_state]. *)
Lemma state_token_consumed_once_witness :
  oauthStates server1 !! token = Some {| expiresAt := 601000 |} /\
  (callback env (world 30000 admin) (query_of "c0de" token)
     (run env [PostLogout (world 2500 admin) (Some "Bearer jwt.janua|1")]
        (callback env (world 2000 admin) (query_of "c0de" token) server1).1.2)).1.1
    = Redirect "/?error=invalid_state".
Proof.
  split; [vm_compute; reflexivity|].
  apply (state_token_consumed_once env (world 2000 admin) (query_of "c0de" token)
           server1 token {| expiresAt := 601000 |}
           [PostLogout (world 2500 admin) (Some "Bearer jwt.janua|1")]
           (world 30000 admin) (query_of "c0de" token));
    try (vm_compute; reflexivity).
  simpl. lia.
Defined.

(** Eleven minutes after the login its token is refused. *)
Lemma expired_state_rejected_witness :
  (callback env (world 661000 admin) (query_of "c0de" token) server1).1.1
    = Redirect "/?error=state_expired" /\
  (callback env (world 661000 admin) (query_of "c0de" token) server1).2 = [].
Proof.
  pose proof (expired_state_rejected env (world 661000 admin) (query_of "c0de" token)
                server1 token {| expiresAt := 601000 |}) as H.
  destruct H as (Hevs & _ & _ & Hres).
  - reflexivity.
  - vm_compute. reflexivity.
  - simpl. lia.
  - split; [|exact Hevs]. apply Hres. reflexivity.
Defined.

(** A stranger's sign-in leaves no trace in the database. *)
Lemma denied_email_no_account_no_token_witness :
  (callback env (world 2000 stranger) (query_of "c0de" token) server1).1.1
    = Redirect ("/?error=" ++ Js.encodeURIComponent access_denied_message) /\
  db (callback env (world 2000 stranger) (query_of "c0de" token) server1).1.2 = MemDb.empty.
Proof.
  pose proof (denied_email_no_account_no_token env (world 2000 stranger)
                (query_of "c0de" token) server1 "c0de" token
                {| access_token := Some "at-1"; id_token := Some "id-1" |} stranger) as H.
  destruct H as (Hres & _ & Hdb & _); try (vm_compute; reflexivity).
  split; [exact Hres | exact Hdb].
Defined.

(** [Admin@MadFam.io] passes the default allow-list. *)
Lemma allow_list_ignores_case_witness :
  exists rest,
    (callback env (world 2000 admin) (query_of "c0de" token) server1).2 =
      FetchToken "c0de" :: FetchUserInfo "Bearer at-1" :: DbGetUserByUsername "janua|1" :: rest.
Proof.
  pose proof (allow_list_ignores_case env (world 2000 admin)
                (query_of "c0de" token) server1 "c0de" token
                {| access_token := Some "at-1"; id_token := Some "id-1" |} admin) as H.
  destruct H as (Hpast & _); try (vm_compute; reflexivity).
  apply Hpast. exists "admin@madfam.io". split; [|reflexivity].
  vm_compute. apply elem_of_cons. left. reflexivity.
Defined.

(** Two identities of the provider under one address get two users. *)
Lemma accounts_keyed_by_subject_witness :
  let p1 := {| userId := 1; username := "janua|1" |} in
  let p2 := {| userId := 2; username := "janua|2" |} in
  JwtSign p1 ∈ (callback env (world 2000 admin) (query_of "c0de" token) server1).2 /\
  JwtSign p2 ∈ (callback env (world 4000 admin_twin) (query_of "c0de2" token2) server2).2 /\
  email admin_twin = Some (Js.toLowerCase (Js.or_default (email admin) "")) /\
  userId p1 <> userId p2 /\ username p1 <> username p2.
Proof.
  intros p1 p2.
  assert (H1 : JwtSign p1 ∈
            (callback env (world 2000 admin) (query_of "c0de" token) server1).2).
  { vm_compute. repeat (apply elem_of_cons; first [left; reflexivity | right]). }
  assert (H2 : JwtSign p2 ∈
            (callback env (world 4000 admin_twin) (query_of "c0de2" token2) server2).2).
  { vm_compute. repeat (apply elem_of_cons; first [left; reflexivity | right]). }
  pose proof (accounts_keyed_by_subject (db_ok := fun d => MemDb.wf d = true) env
                (world 2000 admin) (query_of "c0de" token) server1 admin
                [GetLogin (world_drawing token2 3000 admin_twin)]
                (world 4000 admin_twin) (query_of "c0de2" token2) admin_twin) as H.
  destruct H as (_ & _ & Hdistinct); [vm_compute; reflexivity .. |].
  split_and!; try assumption; try reflexivity;
    apply (Hdistinct ltac:(discriminate) p1 p2 H1 H2).
Defined.

(** The second of them is user 2 of the store. *)
Example twins_in_the_store :
  map (fun r => (MemDb.row_id r, MemDb.row_username r, MemDb.row_email r))
      (MemDb.rows (db (callback env (world 4000 admin_twin)
                         (query_of "c0de2" token2) server2).1.2))
  = [(1, "janua|1", Some "Admin@MadFam.io"); (2, "janua|2", Some "admin@madfam.io")].
Proof. vm_compute. reflexivity. Qed.

(** Without credentials the login answers 500. *)
Lemma login_unconfigured_is_refused_witness :
  (login env_unconfigured (world 1000 admin) server0).1.1 =
    Json 500 [("error", JStr "Janua OAuth2 not configured");
              ("hint", JStr "Set JANUA_CLIENT_ID and JANUA_CLIENT_SECRET environment variables")].
Proof.
  rewrite (login_unconfigured_is_refused env_unconfigured (world 1000 admin) server0).
  - reflexivity.
  - left. reflexivity.
Defined.

(** C5 as stated fails: without credentials the URL builder returns a
    URL, with [client_id=undefined]. *)
Lemma authorization_url_without_credentials :
  isConfigured (new_JanuaClient env_unconfigured) = false /\
  getAuthorizationUrl (new_JanuaClient env_unconfigured) "abc" =
    "https://auth.madfam.io/api/v1/oauth/authorize?client_id=undefined&redirect_uri=https%3A%2F%2Fagents.madfam.io%2Fauth%2Fcallback&response_type=code&scope=openid+profile+email+agent%3Aview+agent%3Acontrol&state=abc".
Proof. split; vm_compute; reflexivity. Qed.

(** A forged token is refused with 403. *)
Lemma authenticateToken_refusals_witness :
  authenticateToken env (world 2000 admin) (Some "Bearer forged") MemDb.empty
    = (Respond (Json 403 (error_body "Invalid token")), MemDb.empty, [JwtVerify "forged"]) /\
  refusal_status (authenticateToken env (world 2000 admin) None MemDb.empty).1.1 = Some 401.
Proof.
  pose proof (authenticateToken_refusals env (world 2000 admin) (Some "Bearer forged")
                MemDb.empty eq_refl) as (_ & _ & Hforged).
  pose proof (authenticateToken_refusals env (world 2000 admin) None
                MemDb.empty eq_refl) as (_ & Habsent & _).
  split; [|now apply Habsent].
  apply (Hforged "forged" "invalid signature"); [reflexivity | discriminate | reflexivity].
Defined.

(** C3 as stated fails: the token fails verification and the status is
    403, not 401. *)
Lemma forged_token_is_refused_with_403 :
  jwt_verify (world 2000 admin) "forged" (JWT_SECRET env) = Throw "invalid signature" /\
  refusal_status
    (authenticateToken env (world 2000 admin) (Some "Bearer forged") MemDb.empty).1.1
    <> Some 401.
Proof. split; vm_compute; [reflexivity | discriminate]. Qed.

(** A valid token of a user who is not in the store is refused with 401. *)
Lemma deleted_user_is_unauthenticated_witness :
  refusal_status
    (authenticateToken env (world 2000 admin) (Some "Bearer jwt.alice") MemDb.empty).1.1
    = Some 401.
Proof.
  apply (deleted_user_is_unauthenticated env (world 2000 admin) (Some "Bearer jwt.alice")
           "jwt.alice" {| userId := 1; username := "alice" |} MemDb.empty);
    try reflexivity.
  discriminate.
Defined.

(** C4 as stated fails: the body of the token endpoint's refusal is in
    the redirect. *)
Lemma upstream_error_text_in_redirect :
  token_endpoint (world_refusing 2000 "invalid_grant") "c0de" = not_ok "invalid_grant" /\
  (callback env (world_refusing 2000 "invalid_grant") (query_of "c0de" token) server1).1.1
    = Redirect "/?error=Token%20exchange%20failed%3A%20invalid_grant" /\
  Js.str_includes "invalid_grant" "/?error=Token%20exchange%20failed%3A%20invalid_grant" = true.
Proof. split_and!; vm_compute; reflexivity. Qed.

(** The refusal of the token endpoint, as the callback reports it. *)
Lemma failed_callback_redirects_witness :
  (callback env (world_refusing 2000 "invalid_grant") (query_of "c0de" token) server1).1.1
    = Redirect ("/?error=" ++
        Js.encodeURIComponent ("Token exchange failed: " ++ "invalid_grant")) /\
  (callback env (world_refusing 2000 "invalid_grant") (query_of "c0de" token) server1).2
    = [FetchToken "c0de"].
Proof.
  pose proof (failed_callback_redirects env (world_refusing 2000 "invalid_grant")
                (query_of "c0de" token) server1) as (_ & _ & _ & _ & _ & Hexchange & _).
  destruct (Hexchange "c0de" {| ok := false; text := "invalid_grant";
                                json := Throw "Unexpected token" |})
    as (Hres & Hevs & _); try (vm_compute; reflexivity).
  split; [exact Hres | exact Hevs].
Defined.

(** A logout whose revocation call fails is answered like any other. *)
Example logout_with_failing_revocation :
  logout env (world_refusing 2000 "") (Some "Bearer jwt.alice") server1
  = (Json 200 [("success", JBool true); ("message", JStr "Logged out successfully")],
     server1, [FetchRevoke "jwt.alice"]).
Proof. vm_compute. reflexivity. Qed.

End OnTheSample.

(** * Further properties of the two modules *)

Section MoreProperties.

Context {strings : Js.StringMethods}.
Context {DB : Type} {userDb : UserDb DB}.

Implicit Types (env : Env) (w : World) (srv : Server DB) (query : Query) (d : DB).

(** ** Login and the state store *)

(** X1. A state token drawn by a configured login is good for exactly
    ten minutes: a callback that presents it to the state check gets past
    the check when [Date.now()] is at most the login's time plus 600000 ms
    (the boundary included) and then starts the token exchange; any later
    it is answered with [/?error=state_expired] and calls nobody. *)
Theorem login_token_lives_ten_minutes env w0 srv w1 query :
  isConfigured (new_JanuaClient env) = true ->
  reaches_state_check query = true ->
  q_state query = Some (randomBytes_hex w0) ->
  let srv1 := (login env w0 srv).1.2 in
  let r := callback env w1 query srv1 in
  passes_state_check w1 query srv1 = (Date_now w1 <=? Date_now w0 + 600000) /\
  (Date_now w1 <= Date_now w0 + 600000 ->
     exists code rest, q_code query = Some code /\ r.2 = FetchToken code :: rest) /\
  (Date_now w0 + 600000 < Date_now w1 ->
     r.1.1 = Redirect "/?error=state_expired" /\ r.2 = []).
Proof.
  intros Hconf Hreach Hs srv1 r.
  pose proof (login_issues env w0 srv Hconf) as Hl. fold srv1 in Hl.
  destruct (reaches_state_check_inv _ Hreach) as (Herr & (code & Hc & Hc') & (tok & Hs' & Htok)).
  rewrite Hs in Hs'. injection Hs' as <-.
  split_and!.
  - unfold passes_state_check. rewrite Hreach, Hs, Hl. simpl.
    destruct (Z.gtb_spec (Date_now w1) (Date_now w0 + 600000));
      destruct (Z.leb_spec (Date_now w1) (Date_now w0 + 600000)); (reflexivity || lia).
  - intros Hnow. exists code. subst r.
    rewrite (callback_fresh env w1 query srv1 code _ _ Herr Hc Hc' Hs Htok Hl Hnow).
    simpl. unfold try_catch.
    destruct (callback_try_first_event env w1 code (db srv1)) as (res & d' & evs & ->).
    destruct res; simpl; eauto.
  - intros Hnow. subst r. unfold callback. rewrite Herr, Hc, Hs, Hc', Htok, Hl. simpl.
    destruct (Z.gtb_spec (Date_now w1) (Date_now w0 + 600000)); [auto | lia].
Qed.

(** A login touches only the entry of the token it draws. *)
Lemma login_other_entries env w srv k :
  k <> randomBytes_hex w ->
  oauthStates (login env w srv).1.2 !! k = oauthStates srv !! k.
Proof.
  intros Hk. unfold login. destruct (negb _); simpl; [reflexivity|].
  now rewrite lookup_insert_ne.
Qed.

(** X2. A callback touches no entry of the state store but the one of the
    state it presents: whatever the request and the provider's answers,
    every other token is in the store afterwards exactly as before
    (expired entries that nobody presents are never swept). *)
Theorem callback_keeps_other_states env w query srv k :
  q_state query <> Some k ->
  oauthStates (callback env w query srv).1.2 !! k = oauthStates srv !! k.
Proof.
  intros Hk. unfold callback.
  destruct (Js.truthy (q_error query)); [reflexivity|].
  destruct (q_code query) as [code|]; [|reflexivity].
  destruct (q_state query) as [state|]; [|reflexivity].
  assert (state <> k) by congruence.
  destruct (_ || _); [reflexivity|].
  destruct (oauthStates srv !! state) as [e|]; [|reflexivity].
  destruct (_ >? _); simpl.
  - now rewrite lookup_delete_ne.
  - destruct (try_catch _ _ _) as [[res d'] evs]. simpl. now rewrite lookup_delete_ne.
Qed.

Lemma serve_not_login_subseteq env req srv :
  is_login req = false ->
  oauthStates (serve env req srv).1.2 ⊆ oauthStates srv.
Proof.
  destruct req as [w|w query|w authHeader]; simpl; [discriminate| |]; intros _.
  - destruct (callback_oauthStates env w query srv) as [->|[s ->]]; [reflexivity|].
    apply delete_subseteq.
  - now rewrite logout_oauthStates.
Qed.

(** X3. Only a login adds to the state store: over any sequence of
    callbacks and logouts the store can only lose entries, and the entries
    that remain keep their expiry. *)
Theorem only_login_adds_states env reqs srv :
  forallb (fun req => negb (is_login req)) reqs = true ->
  oauthStates (run env reqs srv) ⊆ oauthStates srv.
Proof.
  revert srv. induction reqs as [|req reqs IH]; intros srv Hreqs; [reflexivity|].
  simpl in Hreqs. apply andb_prop in Hreqs as [Hreq Hreqs].
  apply negb_true_iff in Hreq.
  change (run env (req :: reqs) srv) with (run env reqs (serve env req srv).1.2).
  etrans; [apply IH, Hreqs|]. now apply serve_not_login_subseteq.
Qed.

(** ** The URL builder and the status route *)

Lemma form_safe_app (a b : string) :
  form_safe (a ++ b) = form_safe a && form_safe b.
Proof.
  unfold form_safe. induction a as [|c a IH]; [reflexivity|].
  simpl. now rewrite IH, andb_assoc.
Qed.

Lemma form_safe_percent (c : ascii) : form_safe (Js.percent c) = true.
Proof. destruct c as [[] [] [] [] [] [] [] []]; reflexivity. Qed.

Lemma form_urlencode_safe (s : string) : form_safe (Js.form_urlencode s) = true.
Proof.
  induction s as [|c s IH]; [reflexivity|].
  simpl. rewrite form_safe_app, IH, andb_true_r.
  destruct (Js.alnum c || Js.one_of "*-._" c) eqn:Hkeep.
  - unfold form_safe. simpl. rewrite andb_true_r.
    apply orb_prop in Hkeep as [->|Hc]; [reflexivity|].
    apply orb_true_iff. right. unfold Js.one_of in *. simpl in *.
    repeat (apply orb_prop in Hc as [Hc|Hc]; [rewrite Hc; now rewrite ?orb_true_r|]).
    discriminate.
  - destruct (Ascii.eqb c " "); [reflexivity | apply form_safe_percent].
Qed.

Lemma form_urlencode_alnum (s : string) :
  all_alnum s = true -> Js.form_urlencode s = s.
Proof.
  unfold all_alnum. induction s as [|c s IH]; [reflexivity|].
  simpl. intros [Hc Hs]%andb_prop. now rewrite Hc, (IH Hs).
Qed.

Lemma str_app_assoc (a b c : string) : (a ++ b) ++ c = a ++ b ++ c.
Proof.
  induction a as [|x a IH]; [reflexivity|].
  exact (f_equal (String x) IH).
Qed.

(** X4. The authorization URL is the provider's base URL, the path
    [/api/v1/oauth/authorize] and five parameters, the state last and
    form-encoded.  The encoded state holds only letters, digits and
    [* - . _ + %], so no state can end its parameter or add another; a
    state of letters and digits (such as the login's hex token) is carried
    as it is. *)
Theorem authorization_url_carries_state (this : JanuaClient) (state : string) :
  getAuthorizationUrl this state =
    januaUrl this ++ "/api/v1/oauth/authorize?client_id="
      ++ Js.form_urlencode (Js.to_string (clientId this))
      ++ "&redirect_uri=" ++ Js.form_urlencode (redirectUri this)
      ++ "&response_type=code&scope=openid+profile+email+agent%3Aview+agent%3Acontrol&state="
      ++ Js.form_urlencode state /\
  form_safe (Js.form_urlencode state) = true /\
  (all_alnum state = true -> Js.form_urlencode state = state).
Proof.
  split_and!.
  - unfold getAuthorizationUrl, Js.URLSearchParams_toString.
    cbn [map Js.join fst snd].
    change (Js.form_urlencode "client_id") with "client_id".
    change (Js.form_urlencode "redirect_uri") with "redirect_uri".
    change (Js.form_urlencode "response_type") with "response_type".
    change (Js.form_urlencode "code") with "code".
    change (Js.form_urlencode "scope") with "scope".
    change (Js.form_urlencode "state") with "state".
    change (Js.form_urlencode "openid profile email agent:view agent:control")
      with "openid+profile+email+agent%3Aview+agent%3Acontrol".
    rewrite !str_app_assoc. reflexivity.
  - apply form_urlencode_safe.
  - apply form_urlencode_alnum.
Qed.

(** X5. The status route and the login route agree: [/status] reports
    [oauth_enabled: true] exactly when [/login] answers with a redirect,
    and [false] exactly when [/login] answers 500. *)
Theorem status_agrees_with_login env w srv :
  exists enabled url,
    status env = Json 200 [("oauth_enabled", JBool enabled);
                           ("oauth_provider", JStr "janua");
                           ("janua_url", JStr url)] /\
    url = Js.or_default (JANUA_URL env) "https://auth.madfam.io" /\
    (enabled = true <-> exists location, (login env w srv).1.1 = Redirect location) /\
    (enabled = false <-> exists body, (login env w srv).1.1 = Json 500 body).
Proof.
  exists (isConfigured (new_JanuaClient env)), (januaUrl (new_JanuaClient env)).
  split_and!; try reflexivity; unfold login;
    destruct (isConfigured (new_JanuaClient env)); simpl; split;
    try (intros [? [=]]); try discriminate; eauto.
Qed.

(** ** The module constants of auth.js *)

Lemma loaded_module_secret env :
  auth_module_loads env = true ->
  (exists secret, JWT_SECRET env = Some secret /\ secret <> "") /\
  (NODE_ENV env = "production" -> JWT_SECRET env = ENV_JWT_SECRET env) /\
  (Js.truthy (ENV_JWT_SECRET env) = false ->
     JWT_SECRET env = Some "claude-ui-dev-secret-change-in-production").
Proof.
  unfold auth_module_loads, JWT_SECRET.
  destruct (Js.truthy (ENV_JWT_SECRET env)) eqn:Hset.
  - intros _. apply truthy_Some in Hset as (s & Hs & Hne).
    split_and!; [|reflexivity|discriminate].
    exists s. split; [assumption|]. now apply String.eqb_neq.
  - destruct (String.eqb_spec (NODE_ENV env) "production") as [Hprod|Hdev]; simpl.
    + discriminate.
    + intros _. split_and!; [|contradiction|reflexivity].
      eexists. split; [reflexivity | discriminate].
Qed.

Lemma module_load_fails_iff env :
  auth_module_loads env = false <->
  NODE_ENV env = "production" /\ Js.truthy (ENV_JWT_SECRET env) = false.
Proof.
  unfold auth_module_loads, JWT_SECRET.
  destruct (Js.truthy (ENV_JWT_SECRET env)) eqn:Hset.
  - rewrite Hset, andb_false_r. simpl. split; [discriminate | now intros [_ ?]].
  - destruct (String.eqb_spec (NODE_ENV env) "production") as [Hprod|Hdev]; simpl.
    + split; auto.
    + split; [discriminate | now intros [? _]].
Qed.

(** X6. The module fails fast exactly when [NODE_ENV] is [production]
    and no [JWT_SECRET] is set.  Once it is past that check the signing
    secret is a non-empty string: the configured one, which it always is
    in production, or else the development default. *)
Theorem signing_secret_fail_fast env :
  (auth_module_loads env = false <->
     NODE_ENV env = "production" /\ Js.truthy (ENV_JWT_SECRET env) = false) /\
  (auth_module_loads env = true ->
     (exists secret, JWT_SECRET env = Some secret /\ secret <> "") /\
     (NODE_ENV env = "production" -> JWT_SECRET env = ENV_JWT_SECRET env) /\
     (Js.truthy (ENV_JWT_SECRET env) = false ->
        JWT_SECRET env = Some "claude-ui-dev-secret-change-in-production")).
Proof.
  split; [apply module_load_fails_iff | apply loaded_module_secret].
Qed.

(** ** The API key *)

(** X7. With no [API_KEY] configured (unset or empty) every request goes
    on; with one configured a request goes on exactly when its
    [x-api-key] header is that key, and is answered 401 otherwise, also
    when the header is missing. *)
Theorem validateApiKey_spec (API_KEY apiKey : option string) :
  (Js.truthy API_KEY = false -> validateApiKey API_KEY apiKey = None) /\
  (Js.truthy API_KEY = true ->
     (validateApiKey API_KEY apiKey = None <-> apiKey = API_KEY) /\
     (apiKey <> API_KEY ->
        validateApiKey API_KEY apiKey = Some (Json 401 (error_body "Invalid API key"))) /\
     (apiKey = None ->
        validateApiKey API_KEY apiKey = Some (Json 401 (error_body "Invalid API key")))).
Proof.
  unfold validateApiKey. split.
  - now intros ->.
  - intros Hk. rewrite Hk. simpl.
    destruct (bool_decide_reflect (apiKey = API_KEY)) as [Heq|Hne]; simpl; split_and!.
    + easy.
    + contradiction.
    + intros ->. subst API_KEY. discriminate.
    + split; [discriminate | contradiction].
    + reflexivity.
    + reflexivity.
Qed.

(** ** What a callback does and does not do *)





(** X8. Unless a callback gets past the state check, the code exchange,
    the profile fetch and the allow-list, it leaves the database as it
    was, calls nothing but the provider (no lookup, no account, no token
    signed) and answers with an error redirect. *)
Theorem callback_has_no_effect_unless_accepted env w query srv :
  accepted_profile env w query srv = None ->
  let r := callback env w query srv in
  db r.1.2 = db srv /\
  forallb is_fetch r.2 = true /\
  exists indicator, r.1.1 = Redirect ("/?error=" ++ indicator).
Proof.
  intros Hacc r. subst r. unfold accepted_profile in Hacc.
  destruct (passes_state_check w query srv) eqn:Hp.
  - destruct (passes_state_check_inv _ _ _ Hp) as (code & tok & Hc & Hs).
    rewrite Hc in Hacc. simpl in Hacc.
    rewrite (callback_passes env w query srv code tok Hp Hc Hs). simpl.
    unfold try_catch, callback_try. rewrite bind_unfold.
    destruct (exchange_result w code) as [tr|] eqn:Hx.
    + rewrite (exchange_ok w code tr _ Hx). rewrite bind_unfold. simpl in Hacc.
      destruct (profile_result w tr) as [ui|] eqn:Hu.
      * rewrite (profile_ok w tr ui _ Hu). simpl in Hacc.
        destruct (Js.includes (allowedEmails env) (userEmail_of ui)) eqn:Hal; [discriminate|].
        unfold callback_after_profile. fold (userEmail_of ui). rewrite Hal. simpl. eauto.
      * destruct (profile_fails w tr (db srv) Hu) as (m & ->). simpl. eauto.
    + destruct (exchange_fails w code (db srv) Hx) as (m & ->). simpl. eauto.
  - destruct (callback_not_passing env w query srv Hp) as (-> & Hdb & Hind). auto.
Qed.


(** X9. Sign-in of a known user.  When the lookup by subject finds a
    user, the callback updates that user's last login, creates nobody,
    signs a token for the id and name of the row it found, and redirects to
    [/?token=<token>&oauth=janua] with the token as the library gave it. *)
Theorem sign_in_known_user env w query srv code tok tr ui u d' t :
  passes_state_check w query srv = true ->
  q_code query = Some code ->
  q_state query = Some tok ->
  exchange_result w code = Some tr ->
  profile_result w tr = Some ui ->
  Js.includes (allowedEmails env) (userEmail_of ui) = true ->
  getUserByUsername (sub ui) (db srv) = Return (Some u) ->
  updateLastLogin (user_id u) (db srv) = (Return tt, d') ->
  jwt_sign w {| userId := user_id u; username := user_username u |}
    (JWT_SECRET env) (JWT_EXPIRATION env) = Return t ->
  callback env w query srv =
    (Redirect ("/?token=" ++ t ++ "&oauth=janua"),
     {| oauthStates := delete tok (oauthStates srv); db := d' |},
     [FetchToken code; FetchUserInfo (authorization_of tr);
      DbGetUserByUsername (sub ui); DbUpdateLastLogin (user_id u);
      JwtSign {| userId := user_id u; username := user_username u |}]).
Proof.
  intros Hp Hc Hs Hx Hu Hal Hget Hupd Hsign.
  rewrite (callback_admitted env w query srv code tok tr ui Hp Hc Hs Hx Hu Hal).
  rewrite find_or_create_user_cases, Hget, Hupd. simpl. now rewrite Hsign.
Qed.

(** X10. First sign-in.  When the lookup by subject finds nobody, the
    callback creates a user named by the subject, without password and
    with the profile's address and name, updates no last login, signs a
    token for the user [createUser] returned and redirects with it. *)
Theorem sign_in_new_user env w query srv code tok tr ui u d' t :
  passes_state_check w query srv = true ->
  q_code query = Some code ->
  q_state query = Some tok ->
  exchange_result w code = Some tr ->
  profile_result w tr = Some ui ->
  Js.includes (allowedEmails env) (userEmail_of ui) = true ->
  getUserByUsername (sub ui) (db srv) = Return None ->
  let extra := {| profile_email := email ui; profile_name := name ui;
                  oauth_provider := "janua"; oauth_user_id := sub ui |} in
  createUser (sub ui) None extra (db srv) = (Return u, d') ->
  jwt_sign w {| userId := user_id u; username := user_username u |}
    (JWT_SECRET env) (JWT_EXPIRATION env) = Return t ->
  callback env w query srv =
    (Redirect ("/?token=" ++ t ++ "&oauth=janua"),
     {| oauthStates := delete tok (oauthStates srv); db := d' |},
     [FetchToken code; FetchUserInfo (authorization_of tr);
      DbGetUserByUsername (sub ui); DbCreateUser (sub ui) None extra;
      JwtSign {| userId := user_id u; username := user_username u |}]).
Proof.
  intros Hp Hc Hs Hx Hu Hal Hget extra Hcreate Hsign.
  rewrite (callback_admitted env w query srv code tok tr ui Hp Hc Hs Hx Hu Hal).
  rewrite find_or_create_user_cases, Hget. cbv zeta. fold extra. rewrite Hcreate.
  simpl. now rewrite Hsign.
Qed.

(** X11. When the token library throws after the user has been created,
    the callback answers with an error redirect carrying the library's
    message, and the new user stays in the database. *)
Theorem failed_signing_keeps_new_user env w query srv code tok tr ui u d' m :
  passes_state_check w query srv = true ->
  q_code query = Some code ->
  q_state query = Some tok ->
  exchange_result w code = Some tr ->
  profile_result w tr = Some ui ->
  Js.includes (allowedEmails env) (userEmail_of ui) = true ->
  getUserByUsername (sub ui) (db srv) = Return None ->
  let extra := {| profile_email := email ui; profile_name := name ui;
                  oauth_provider := "janua"; oauth_user_id := sub ui |} in
  createUser (sub ui) None extra (db srv) = (Return u, d') ->
  jwt_sign w {| userId := user_id u; username := user_username u |}
    (JWT_SECRET env) (JWT_EXPIRATION env) = Throw m ->
  let r := callback env w query srv in
  r.1.1 = Redirect ("/?error=" ++ Js.encodeURIComponent m) /\
  db r.1.2 = d' /\
  oauthStates r.1.2 = delete tok (oauthStates srv).
Proof.
  intros Hp Hc Hs Hx Hu Hal Hget extra Hcreate Hsign r. subst r.
  rewrite (callback_admitted env w query srv code tok tr ui Hp Hc Hs Hx Hu Hal).
  rewrite find_or_create_user_cases, Hget. cbv zeta. fold extra. rewrite Hcreate.
  simpl. now rewrite Hsign.
Qed.

(** X12. A database error during reconciliation ends the sign-in: when
    the lookup, the creation or the update of the last login throws, the
    callback answers with an error redirect carrying the error's message
    and no token is signed. *)
Theorem database_error_ends_sign_in env w query srv code tok tr ui :
  passes_state_check w query srv = true ->
  q_code query = Some code ->
  q_state query = Some tok ->
  exchange_result w code = Some tr ->
  profile_result w tr = Some ui ->
  Js.includes (allowedEmails env) (userEmail_of ui) = true ->
  let r := callback env w query srv in
  let extra := {| profile_email := email ui; profile_name := name ui;
                  oauth_provider := "janua"; oauth_user_id := sub ui |} in
  let refused m :=
    r.1.1 = Redirect ("/?error=" ++ Js.encodeURIComponent m) /\
    forallb (fun ev => match ev with JwtSign _ => false | _ => true end) r.2 = true in
  (forall m, getUserByUsername (sub ui) (db srv) = Throw m -> refused m) /\
  (forall m d', getUserByUsername (sub ui) (db srv) = Return None ->
     createUser (sub ui) None extra (db srv) = (Throw m, d') -> refused m) /\
  (forall u m d', getUserByUsername (sub ui) (db srv) = Return (Some u) ->
     updateLastLogin (user_id u) (db srv) = (Throw m, d') -> refused m).
Proof.
  intros Hp Hc Hs Hx Hu Hal r extra refused. subst r refused.
  rewrite (callback_admitted env w query srv code tok tr ui Hp Hc Hs Hx Hu Hal).
  rewrite find_or_create_user_cases. split_and!.
  - now intros m ->.
  - intros m d' -> Hcreate. cbv zeta. fold extra. now rewrite Hcreate.
  - intros u m d' -> Hupd. now rewrite Hupd.
Qed.

(** X24. Failures of the provider other than a failure status end the
    sign-in the same way.  When the request to the token endpoint is
    rejected, or its body is not JSON, the callback redirects with the
    message of that error, has made one call and leaves the database as it
    was; likewise for the userinfo endpoint, after two calls. *)
Theorem provider_failure_is_redirected env w query srv code :
  passes_state_check w query srv = true ->
  q_code query = Some code ->
  let r := callback env w query srv in
  let failed m evs :=
    r.1.1 = Redirect ("/?error=" ++ Js.encodeURIComponent m) /\
    r.2 = evs /\ db r.1.2 = db srv in
  (forall m, token_endpoint w code = Throw m -> failed m [FetchToken code]) /\
  (forall resp m, token_endpoint w code = Return resp -> ok resp = true ->
     json resp = Throw m -> failed m [FetchToken code]) /\
  (forall tr m, exchange_result w code = Some tr ->
     userinfo_endpoint w (authorization_of tr) = Throw m ->
     failed m [FetchToken code; FetchUserInfo (authorization_of tr)]) /\
  (forall tr resp m, exchange_result w code = Some tr ->
     userinfo_endpoint w (authorization_of tr) = Return resp -> ok resp = true ->
     json resp = Throw m ->
     failed m [FetchToken code; FetchUserInfo (authorization_of tr)]).
Proof.
  intros Hp Hc r failed. subst r failed.
  destruct (passes_state_check_inv _ _ _ Hp) as (code' & tok & Hc' & Hs).
  rewrite Hc in Hc'. injection Hc' as <-.
  rewrite (callback_passes env w query srv code tok Hp Hc Hs). simpl.
  unfold try_catch, callback_try. rewrite bind_unfold.
  split_and!.
  - intros m Hr. unfold exchangeCodeForToken. rewrite bind_unfold. unfold call.
    now rewrite Hr.
  - intros resp m Hr Hok Hj. unfold exchangeCodeForToken. rewrite bind_unfold.
    unfold call, lift. now rewrite Hr, Hok, Hj.
  - intros tr m Hx Hr. rewrite (exchange_ok w code tr _ Hx), bind_unfold.
    unfold getUserInfo. fold (authorization_of tr). rewrite bind_unfold. unfold call.
    now rewrite Hr.
  - intros tr resp m Hx Hr Hok Hj. rewrite (exchange_ok w code tr _ Hx), bind_unfold.
    unfold getUserInfo. fold (authorization_of tr). rewrite bind_unfold.
    unfold call, lift. now rewrite Hr, Hok, Hj.
Qed.



Lemma callback_after_profile_no_fetch env w ui d :
  forallb (fun ev => negb (is_fetch ev)) (callback_after_profile env w ui d).2 = true.
Proof.
  destruct (Js.includes (allowedEmails env) (userEmail_of ui)) eqn:Hal.
  - rewrite (callback_after_profile_allowed env w ui d Hal), find_or_create_user_cases.
    destruct (getUserByUsername (sub ui) d) as [[u|]|m]; [| |reflexivity].
    + destruct (updateLastLogin (user_id u) d) as [[[]|m] d']; reflexivity.
    + cbv zeta.
      match goal with |- context [createUser ?a ?b ?c ?d] =>
        destruct (createUser a b c d) as [[u|m] d'] end; reflexivity.
  - unfold callback_after_profile. fold (userEmail_of ui). now rewrite Hal.
Qed.

(** X13. A callback calls the provider at most twice and in one order:
    it calls nobody, or it exchanges the code once, or it exchanges the
    code once and then fetches the profile once; everything after that is
    local (database and token library).  The code is never sent twice and
    nothing is revoked. *)
Theorem callback_calls_provider_in_order env w query srv :
  let evs := (callback env w query srv).2 in
  evs = [] \/
  exists code, q_code query = Some code /\
    (evs = [FetchToken code] \/
     exists authorization rest,
       evs = FetchToken code :: FetchUserInfo authorization :: rest /\
       forallb (fun ev => negb (is_fetch ev)) rest = true).
Proof.
  intros evs. subst evs.
  destruct (passes_state_check w query srv) eqn:Hp.
  - destruct (passes_state_check_inv _ _ _ Hp) as (code & tok & Hc & Hs).
    right. exists code. split; [assumption|].
    rewrite (callback_passes env w query srv code tok Hp Hc Hs). simpl.
    unfold try_catch, callback_try. rewrite bind_unfold.
    destruct (exchange_events w code (db srv)) as ([tr|m] & ->); [|now left].
    rewrite bind_unfold.
    destruct (profile_events w tr (db srv)) as ([ui|m] & ->); [|simpl; eauto].
    pose proof (callback_after_profile_no_fetch env w ui (db srv)) as Hlocal.
    destruct (callback_after_profile env w ui (db srv)) as [[[res|m] d'] rest];
      simpl in *; right; eauto.
  - left. now destruct (callback_not_passing env w query srv Hp) as (-> & _).
Qed.

(** X14. The allow-list is never empty, and an unset or empty
    [JANUA_ALLOWED_EMAILS] stands for the one default address: an empty
    setting neither admits everybody nor shuts everybody out. *)
Theorem allow_list_default env :
  allowedEmails env <> [] /\
  (Js.truthy (JANUA_ALLOWED_EMAILS env) = false ->
     allowedEmails env = [Js.toLowerCase (Js.trim "admin@madfam.io")]).
Proof.
  split.
  - unfold allowedEmails.
    generalize (Js.or_default (JANUA_ALLOWED_EMAILS env) "admin@madfam.io") as cfg.
    intros cfg. destruct cfg as [|c cfg]; [discriminate|]. simpl.
    destruct (Ascii.eqb c ","); [discriminate|].
    destruct (Js.split "," cfg); discriminate.
  - unfold allowedEmails, Js.or_default.
    destruct (JANUA_ALLOWED_EMAILS env) as [cfg|]; simpl; [|reflexivity].
    intros Hcfg. apply negb_false_iff in Hcfg. now rewrite Hcfg.
Qed.

(** ** The middleware *)

(** X15. On the JWT path a request whose token verifies and whose
    [userId] is in the database goes on as the user the database returned
    for that id: the name in the token plays no part, and the database is
    only read. *)
Theorem authenticateToken_accepts env w authHeader token claims u d :
  is_true (VITE_IS_PLATFORM env) = false ->
  bearer_token authHeader = Some token -> token <> "" ->
  jwt_verify w token (JWT_SECRET env) = Return claims ->
  getUserById (userId claims) d = Return (Some u) ->
  authenticateToken env w authHeader d =
    (Next u, d, [JwtVerify token; DbGetUserById (userId claims)]).
Proof.
  intros Hp Ht Hne Hv Hu.
  rewrite (authenticateToken_jwt env w authHeader token d Hp Ht Hne).
  unfold try_catch, jwt_try. rewrite bind_unfold. unfold call. rewrite Hv.
  rewrite bind_unfold. unfold db_read. now rewrite Hu.
Qed.

(** X16. On the JWT path a database error during the user lookup is
    answered like a bad token: 403 with the body [Invalid token]. *)
Theorem authenticateToken_database_error env w authHeader token claims m d :
  is_true (VITE_IS_PLATFORM env) = false ->
  bearer_token authHeader = Some token -> token <> "" ->
  jwt_verify w token (JWT_SECRET env) = Return claims ->
  getUserById (userId claims) d = Throw m ->
  authenticateToken env w authHeader d =
    (Respond (Json 403 (error_body "Invalid token")), d,
     [JwtVerify token; DbGetUserById (userId claims)]).
Proof.
  intros Hp Ht Hne Hv Hu.
  rewrite (authenticateToken_jwt env w authHeader token d Hp Ht Hne).
  unfold try_catch, jwt_try. rewrite bind_unfold. unfold call. rewrite Hv.
  rewrite bind_unfold. unfold db_read. now rewrite Hu.
Qed.

Lemma split_space_no_space (s rest : string) :
  no_space s = true ->
  Js.split " " (s ++ String " " rest) = s :: Js.split " " rest.
Proof.
  unfold no_space. induction s as [|c s IH]; [reflexivity|].
  simpl. intros [Hc Hs]%andb_prop. apply negb_true_iff in Hc.
  change (String c s ++ String " " rest) with (String c (s ++ String " " rest)).
  simpl. now rewrite Hc, (IH Hs).
Qed.

Lemma split_space_head (s : string) :
  no_space s = true -> Js.split " " s = [s].
Proof.
  unfold no_space. induction s as [|c s IH]; [reflexivity|].
  simpl. intros [Hc Hs]%andb_prop. apply negb_true_iff in Hc.
  now rewrite Hc, (IH Hs).
Qed.

(** The middleware reads the header only through its second field. *)
Lemma authenticateToken_by_token env w h h' d :
  bearer_token h = bearer_token h' ->
  authenticateToken env w h d = authenticateToken env w h' d.
Proof. unfold authenticateToken. now intros ->. Qed.

(** X17. The middleware takes the token to be the second space-separated
    field of the Authorization header and does not look at the first: any
    scheme word in front of the token, and anything after a further space,
    gives the same answer as [Bearer <token>]; a header of one word has no
    token. *)
Theorem authorization_scheme_is_not_checked env w scheme token d :
  no_space scheme = true ->
  no_space token = true ->
  (forall trailer,
     authenticateToken env w (Some (scheme ++ " " ++ token ++ " " ++ trailer)) d
     = authenticateToken env w (Some ("Bearer " ++ token)) d) /\
  authenticateToken env w (Some (scheme ++ " " ++ token)) d
    = authenticateToken env w (Some ("Bearer " ++ token)) d /\
  bearer_token (Some ("Bearer " ++ token)) = Some token /\
  (scheme <> "" -> bearer_token (Some scheme) = None).
Proof.
  intros Hscheme Htoken.
  assert (Hb : bearer_token (Some ("Bearer " ++ token)) = Some token).
  { unfold bearer_token.
    change ("Bearer " ++ token) with ("Bearer" ++ String " " token).
    rewrite (split_space_no_space "Bearer" token eq_refl), (split_space_head token Htoken).
    reflexivity. }
  assert (Hnonempty : forall rest, String.eqb (scheme ++ String " " rest) "" = false).
  { intros rest. now destruct scheme. }
  split_and!.
  - intros trailer. apply authenticateToken_by_token. rewrite Hb.
    unfold bearer_token.
    change (scheme ++ " " ++ token ++ " " ++ trailer)
      with (scheme ++ String " " (token ++ String " " trailer)).
    rewrite Hnonempty, (split_space_no_space scheme _ Hscheme).
    now rewrite (split_space_no_space token _ Htoken).
  - apply authenticateToken_by_token. rewrite Hb.
    unfold bearer_token.
    change (scheme ++ " " ++ token) with (scheme ++ String " " token).
    rewrite Hnonempty, (split_space_no_space scheme _ Hscheme).
    now rewrite (split_space_head token Htoken).
  - exact Hb.
  - intros Hne. unfold bearer_token.
    apply String.eqb_neq in Hne. rewrite Hne.
    now rewrite (split_space_head scheme Hscheme).
Qed.

(** *** Platform mode *)

(** X18. Platform mode in production needs [ALLOW_PLATFORM_MODE=true]:
    without it every HTTP request is answered 403 and every socket is
    refused, whatever token it carries, and the database is not touched. *)
Theorem platform_mode_closed_in_production env w authHeader token d :
  is_true (VITE_IS_PLATFORM env) = true ->
  NODE_ENV env = "production" ->
  is_true (ALLOW_PLATFORM_MODE env) = false ->
  authenticateToken env w authHeader d =
    (Respond (Json 403 (error_body
       "Platform mode is disabled in production. Set ALLOW_PLATFORM_MODE=true to enable.")),
     d, []) /\
  authenticateWebSocket env w token d = (None, d, []).
Proof.
  intros Hp Hprod Hallow. unfold authenticateToken, authenticateWebSocket.
  now rewrite Hp, Hprod, Hallow.
Qed.

(** X19. In open platform mode the middleware authenticates nobody: the
    header is not read and no token is verified.  Every request goes on as
    the first user of the database; with no user, or when the database
    throws, the answer is 500. *)
Theorem platform_mode_is_first_user env w authHeader d :
  platform_mode_open env = true ->
  let r := authenticateToken env w authHeader d in
  (forall w' authHeader', authenticateToken env w' authHeader' d = r) /\
  r.1.2 = d /\ r.2 = [DbGetFirstUser] /\
  (forall u, getFirstUser d = Return (Some u) -> r.1.1 = Next u) /\
  (getFirstUser d = Return None ->
     r.1.1 = Respond (Json 500 (error_body "Platform mode: No user found in database"))) /\
  (forall m, getFirstUser d = Throw m ->
     r.1.1 = Respond (Json 500 (error_body "Platform mode: Failed to fetch user"))).
Proof.
  intros Hopen r. subst r. unfold platform_mode_open in Hopen.
  apply andb_prop in Hopen as [Hp Hopen].
  apply negb_true_iff in Hopen.
  unfold authenticateToken. rewrite Hp, Hopen.
  unfold try_catch, platform_try. rewrite bind_unfold. unfold db_read.
  split_and!.
  - reflexivity.
  - now destruct (getFirstUser d) as [[u|]|m].
  - now destruct (getFirstUser d) as [[u|]|m].
  - now intros u ->.
  - now intros ->.
  - now intros m ->.
Qed.

(** *** Sockets *)

Lemma authenticateWebSocket_jwt env w token d :
  is_true (VITE_IS_PLATFORM env) = false ->
  authenticateWebSocket env w token d =
    match token with
    | Some t =>
        if String.eqb t "" then (None, d, [])
        else (match jwt_verify w t (JWT_SECRET env) with
              | Return claims => Some claims
              | Throw _ => None
              end, d, [JwtVerify t])
    | None => (None, d, [])
    end.
Proof.
  intros Hp. unfold authenticateWebSocket. rewrite Hp.
  destruct token as [t|]; [|reflexivity].
  destruct (String.eqb t ""); [reflexivity|].
  unfold try_catch, ws_jwt_try. rewrite bind_unfold. unfold call.
  now destruct (jwt_verify w t (JWT_SECRET env)).
Qed.

(** X20. Outside platform mode a socket is authenticated exactly when it
    brings a non-empty token that verifies, and then as the claims of the
    token; a missing, empty or failing token gives [null], never an
    exception.  The database is not consulted. *)
Theorem authenticateWebSocket_by_token_alone env w token d :
  is_true (VITE_IS_PLATFORM env) = false ->
  let r := authenticateWebSocket env w token d in
  (forall claims,
     r.1.1 = Some claims <->
     exists t, token = Some t /\ t <> "" /\ jwt_verify w t (JWT_SECRET env) = Return claims) /\
  r.1.2 = d /\
  forallb is_JwtVerify r.2 = true.
Proof.
  intros Hp r. subst r. rewrite (authenticateWebSocket_jwt env w token d Hp).
  destruct token as [t|]; [|split_and!; try reflexivity;
    intros claims; split; [discriminate | now intros (t & [=] & _)]].
  destruct (String.eqb_spec t "") as [->|Hne].
  - split_and!; try reflexivity. intros claims. split; [discriminate|].
    now intros (t & [= <-] & Hne & _).
  - split_and!; try reflexivity. intros claims. simpl. split.
    + destruct (jwt_verify w t (JWT_SECRET env)) as [c|m] eqn:Hv; [|discriminate].
      intros [= ->]. eauto.
    + now intros (t' & [= <-] & _ & ->).
Qed.

(** X21. Outside platform mode the two entry points differ on a deleted
    user: a token that
    verifies for a [userId] that is no longer in the database is refused
    with 401 by the HTTP middleware and accepted by the socket
    authentication, which returns its claims. *)
Theorem deleted_user_keeps_socket_access env w token claims d :
  is_true (VITE_IS_PLATFORM env) = false ->
  token <> "" -> no_space token = true ->
  jwt_verify w token (JWT_SECRET env) = Return claims ->
  getUserById (userId claims) d = Return None ->
  refusal_status (authenticateToken env w (Some ("Bearer " ++ token)) d).1.1 = Some 401 /\
  (authenticateWebSocket env w (Some token) d).1.1 = Some claims.
Proof.
  intros Hp Hne Hns Hv Hu. split.
  - assert (Hb : bearer_token (Some ("Bearer " ++ token)) = Some token).
    { unfold bearer_token.
      change ("Bearer " ++ token) with ("Bearer" ++ String " " token).
      rewrite (split_space_no_space "Bearer" token eq_refl), (split_space_head token Hns).
      reflexivity. }
    rewrite (authenticateToken_jwt env w _ token d Hp Hb Hne).
    unfold try_catch. now rewrite (jwt_try_no_user env w token claims d Hv Hu).
  - rewrite (authenticateWebSocket_jwt env w (Some token) d Hp).
    apply String.eqb_neq in Hne. now rewrite Hne, Hv.
Qed.

(** X22. In open platform mode a socket is authenticated without a
    look at its token: the result is the id and name of the first user of
    the database, or [null] when there is none or the database throws. *)
Theorem authenticateWebSocket_platform env w token d :
  platform_mode_open env = true ->
  let r := authenticateWebSocket env w token d in
  (forall w' token', authenticateWebSocket env w' token' d = r) /\
  r.1.2 = d /\ r.2 = [DbGetFirstUser] /\
  r.1.1 = match getFirstUser d with
          | Return (Some u) => Some {| userId := user_id u; username := user_username u |}
          | _ => None
          end.
Proof.
  intros Hopen r. subst r. unfold platform_mode_open in Hopen.
  apply andb_prop in Hopen as [Hp Hopen].
  apply negb_true_iff in Hopen.
  unfold authenticateWebSocket. rewrite Hp, Hopen.
  unfold try_catch, ws_platform_try. rewrite bind_unfold. unfold db_read.
  split_and!; try (now destruct (getFirstUser d) as [[u|]|m]).
Qed.

(** ** Logout *)


(** X23. Logout ends nothing on the server: after any logout the
    middleware and the socket authentication answer every request as they
    would have before it, so the session token that was logged out still
    authenticates until it expires. *)
Theorem logout_keeps_session_valid env w_out header_out srv w authHeader token :
  let srv' := (logout env w_out header_out srv).1.2 in
  authenticateToken env w authHeader (db srv') = authenticateToken env w authHeader (db srv) /\
  authenticateWebSocket env w token (db srv') = authenticateWebSocket env w token (db srv) /\
  oauthStates srv' = oauthStates srv.
Proof.
  intros srv'. subst srv'. now rewrite logout_state.
Qed.

End MoreProperties.

(** * The further properties on the sample deployments *)

Section MoreOnTheSample.

#[local] Existing Instance Js.AsciiStrings.
#[local] Existing Instance MemDb.userDb.
#[local] Existing Instance MoreSamples.BrokenDb.

Import Sample MoreSamples.

(** Ten minutes to the millisecond after the login its token still
    passes; one millisecond later it does not. *)
Lemma login_token_lives_ten_minutes_witness :
  passes_state_check (world 601000 admin) (query_of "c0de" token) server1 = true /\
  passes_state_check (world 601001 admin) (query_of "c0de" token) server1 = false.
Proof.
  pose proof (login_token_lives_ten_minutes env (world 1000 admin) server0
                (world 601000 admin) (query_of "c0de" token) eq_refl eq_refl eq_refl)
    as (H1 & _).
  pose proof (login_token_lives_ten_minutes env (world 1000 admin) server0
                (world 601001 admin) (query_of "c0de" token) eq_refl eq_refl eq_refl)
    as (H2 & _).
  split; [exact H1 | exact H2].
Defined.

(** The callback of the first login leaves the token of the second alone. *)
Lemma callback_keeps_other_states_witness :
  oauthStates (callback env (world 2000 admin) (query_of "c0de" token) server_two_logins).1.2
    !! token2 = Some {| expiresAt := 601500 |}.
Proof.
  rewrite (callback_keeps_other_states env (world 2000 admin) (query_of "c0de" token)
             server_two_logins token2).
  - vm_compute. reflexivity.
  - simpl. discriminate.
Defined.

(** A callback and a logout add nothing to the store. *)
Lemma only_login_adds_states_witness :
  oauthStates (run env [GetCallback (world 2000 stranger) (query_of "c0de" token);
                        PostLogout (world 2500 admin) (Some "Bearer jwt.alice")]
                 server_two_logins)
    ⊆ oauthStates server_two_logins.
Proof.
  apply (only_login_adds_states env
           [GetCallback (world 2000 stranger) (query_of "c0de" token);
            PostLogout (world 2500 admin) (Some "Bearer jwt.alice")] server_two_logins).
  reflexivity.
Defined.

(** With the provider out of reach the database stays empty. *)
Lemma callback_has_no_effect_unless_accepted_witness :
  db (callback env (world_offline 2000) (query_of "c0de" token) server1).1.2 = MemDb.empty.
Proof.
  pose proof (callback_has_no_effect_unless_accepted env (world_offline 2000)
                (query_of "c0de" token) server1) as H.
  destruct H as (Hdb & _); [vm_compute; reflexivity|].
  exact Hdb.
Defined.

(** The second sign-in of the administrator. *)
Lemma sign_in_known_user_witness :
  (callback env (world_drawing token2 4000 admin) (query_of "c0de2" token2) server2).1.1
    = Redirect "/?token=jwt.janua|1&oauth=janua".
Proof.
  rewrite (sign_in_known_user env (world_drawing token2 4000 admin)
             (query_of "c0de2" token2) server2 "c0de2" token2 access admin user1
             (MemDb.update_last_login 1 (db server2)).2 "jwt.janua|1");
    try (vm_compute; reflexivity).
Defined.

(** The first sign-in of the administrator. *)
Lemma sign_in_new_user_witness :
  (callback env (world 2000 admin) (query_of "c0de" token) server1).1.1
    = Redirect "/?token=jwt.janua|1&oauth=janua".
Proof.
  rewrite (sign_in_new_user env (world 2000 admin) (query_of "c0de" token) server1
             "c0de" token access admin user1
             (MemDb.create "janua|1" None
                {| profile_email := Some "Admin@MadFam.io"; profile_name := Some "Admin";
                   oauth_provider := "janua"; oauth_user_id := "janua|1" |}
                MemDb.empty).2 "jwt.janua|1");
    try (vm_compute; reflexivity).
Defined.

(** The token library refuses to sign: the administrator is in the
    database all the same. *)
Lemma failed_signing_keeps_new_user_witness :
  map MemDb.row_username
      (MemDb.rows (db (callback env (world_unsigned 2000 admin)
                         (query_of "c0de" token) server1).1.2))
    = ["janua|1"] /\
  (callback env (world_unsigned 2000 admin) (query_of "c0de" token) server1).1.1
    = Redirect "/?error=secretOrPrivateKey%20must%20have%20a%20value".
Proof.
  pose proof (failed_signing_keeps_new_user env (world_unsigned 2000 admin)
                (query_of "c0de" token) server1 "c0de" token access admin user1
                (MemDb.create "janua|1" None
                   {| profile_email := Some "Admin@MadFam.io"; profile_name := Some "Admin";
                      oauth_provider := "janua"; oauth_user_id := "janua|1" |}
                   MemDb.empty).2
                "secretOrPrivateKey must have a value") as H.
  destruct H as (Hres & Hdb & _); [vm_compute; reflexivity .. |].
  split; [now rewrite Hdb | exact Hres].
Defined.

(** The database is locked during the lookup. *)
Lemma database_error_ends_sign_in_witness :
  (callback env (world 2000 admin) (query_of "c0de" token) broken_server1).1.1
    = Redirect "/?error=SQLITE_BUSY%3A%20database%20is%20locked".
Proof.
  pose proof (database_error_ends_sign_in env (world 2000 admin) (query_of "c0de" token)
                broken_server1 "c0de" token access admin) as H.
  destruct H as (Hlookup & _); [vm_compute; reflexivity .. |].
  destruct (Hlookup locked eq_refl) as (Hres & _). exact Hres.
Defined.

(** The provider cannot be reached. *)
Lemma provider_failure_is_redirected_witness :
  (callback env (world_offline 2000) (query_of "c0de" token) server1).1.1
    = Redirect ("/?error=" ++ Js.encodeURIComponent
                  "request to https://auth.madfam.io/api/v1/oauth/token failed").
Proof.
  pose proof (provider_failure_is_redirected env (world_offline 2000)
                (query_of "c0de" token) server1 "c0de") as H.
  destruct H as (Hrejected & _); [vm_compute; reflexivity .. |].
  destruct (Hrejected _ eq_refl) as (Hres & _). exact Hres.
Defined.

(** A token for user 1 goes on as the user the database has under 1,
    whatever name the token carries. *)
Lemma authenticateToken_accepts_witness :
  (authenticateToken env (world 5000 admin) (Some "Bearer jwt.alice") (db server2)).1.1
    = Next user1.
Proof.
  rewrite (authenticateToken_accepts env (world 5000 admin) (Some "Bearer jwt.alice")
             "jwt.alice" {| userId := 1; username := "alice" |} user1 (db server2));
    try (vm_compute; reflexivity).
  discriminate.
Defined.

(** The same token while the database is locked. *)
Lemma authenticateToken_database_error_witness :
  refusal_status
    (authenticateToken env (world 5000 admin) (Some "Bearer jwt.alice") tt).1.1 = Some 403.
Proof.
  rewrite (authenticateToken_database_error env (world 5000 admin) (Some "Bearer jwt.alice")
             "jwt.alice" {| userId := 1; username := "alice" |} locked tt);
    try (vm_compute; reflexivity).
  discriminate.
Defined.

(** [Basic jwt.alice] is answered like [Bearer jwt.alice]. *)
Lemma authorization_scheme_is_not_checked_witness :
  authenticateToken env (world 5000 admin) (Some "Basic jwt.alice") (db server2)
    = authenticateToken env (world 5000 admin) (Some "Bearer jwt.alice") (db server2).
Proof.
  pose proof (authorization_scheme_is_not_checked env (world 5000 admin)
                "Basic" "jwt.alice" (db server2) eq_refl eq_refl) as (_ & H & _).
  exact H.
Defined.

(** Platform mode in production, without the opt-in. *)
Lemma platform_mode_closed_in_production_witness :
  refusal_status
    (authenticateToken env_platform_production (world 5000 admin)
       (Some "Bearer jwt.alice") (db server2)).1.1 = Some 403 /\
  (authenticateWebSocket env_platform_production (world 5000 admin)
     (Some "jwt.alice") (db server2)).1.1 = None.
Proof.
  pose proof (platform_mode_closed_in_production env_platform_production (world 5000 admin)
                (Some "Bearer jwt.alice") (Some "jwt.alice") (db server2)
                eq_refl eq_refl eq_refl) as (H1 & H2).
  split; [now rewrite H1 | now rewrite H2].
Defined.

(** Platform mode in development: a forged token goes on as user 1. *)
Lemma platform_mode_is_first_user_witness :
  (authenticateToken env_platform (world 5000 admin) (Some "Bearer forged") (db server2)).1.1
    = Next user1.
Proof.
  pose proof (platform_mode_is_first_user env_platform (world 5000 admin)
                (Some "Bearer forged") (db server2) eq_refl) as (_ & _ & _ & H & _).
  apply H. vm_compute. reflexivity.
Defined.

(** A socket with a good token, on an empty database. *)
Lemma authenticateWebSocket_by_token_alone_witness :
  (authenticateWebSocket env (world 5000 admin) (Some "jwt.alice") MemDb.empty).1.1
    = Some {| userId := 1; username := "alice" |}.
Proof.
  pose proof (authenticateWebSocket_by_token_alone env (world 5000 admin)
                (Some "jwt.alice") MemDb.empty eq_refl) as (H & _).
  apply H. exists "jwt.alice". split_and!; [reflexivity | discriminate | reflexivity].
Defined.

(** The same token over HTTP and over a socket, the user deleted. *)
Lemma deleted_user_keeps_socket_access_witness :
  refusal_status
    (authenticateToken env (world 5000 admin) (Some "Bearer jwt.alice") MemDb.empty).1.1
    = Some 401 /\
  (authenticateWebSocket env (world 5000 admin) (Some "jwt.alice") MemDb.empty).1.1
    = Some {| userId := 1; username := "alice" |}.
Proof.
  apply (deleted_user_keeps_socket_access env (world 5000 admin) "jwt.alice"
           {| userId := 1; username := "alice" |} MemDb.empty);
    try reflexivity.
  discriminate.
Defined.

(** A socket in platform mode, without any token. *)
Lemma authenticateWebSocket_platform_witness :
  (authenticateWebSocket env_platform (world 5000 admin) None (db server2)).1.1
    = Some {| userId := 1; username := "janua|1" |}.
Proof.
  pose proof (authenticateWebSocket_platform env_platform (world 5000 admin) None
                (db server2) eq_refl) as (_ & _ & _ & H).
  rewrite H. vm_compute. reflexivity.
Defined.

(** C1 as stated fails: a callback that presents the token together with
    an [error] parameter returns before the state check; the token stays
    in the store and the next callback presenting it passes the check and
    is signed in. *)
Lemma error_callback_leaves_token_in_store :
  oauthStates server1 !! token = Some {| expiresAt := 601000 |} /\
  callback env (world 2000 admin) (query_cancelled token) server1
    = (Redirect "/?error=user%20cancelled", server1, []) /\
  (callback env (world 3000 admin) (query_of "c0de" token)
     (callback env (world 2000 admin) (query_cancelled token) server1).1.2).1.1
    = Redirect "/?token=jwt.janua|1&oauth=janua" /\
  head (callback env (world 3000 admin) (query_of "c0de" token)
          (callback env (world 2000 admin) (query_cancelled token) server1).1.2).2
    = Some (FetchToken "c0de").
Proof. split_and!; vm_compute; reflexivity. Qed.

(** C6 as stated fails: in platform mode a token that verifies for a
    user who is no longer in the database is not refused; the request
    goes on as the first user. *)
Lemma platform_mode_passes_deleted_user :
  jwt_verify (world 5000 admin) "jwt.alice" (JWT_SECRET env_platform)
    = Return {| userId := 1; username := "alice" |} /\
  getUserById 1 bob_only = Return None /\
  (authenticateToken env_platform (world 5000 admin) (Some "Bearer jwt.alice") bob_only).1.1
    = Next bob /\
  refusal_status
    (authenticateToken env_platform (world 5000 admin) (Some "Bearer jwt.alice") bob_only).1.1
    <> Some 401.
Proof. split_and!; vm_compute; [reflexivity | reflexivity | reflexivity | discriminate]. Qed.

End MoreOnTheSample.
